(** * Performance regression tool: a shallow embedding and its properties

    The program under study is the Python script
    [performance_regression_tool_2.ipynb]: it times a compile-and-run cycle a
    few times, merges the averaged measurement into a CSV history grouped by
    a minute-granularity timestamp, and compares a new measurement with the
    all-history average.

    Modelling choices, all local to this file:
    - Python floats holding timings are exact rationals ([Q], compared with
      [==]); rounding is abstracted away.  The only place where the script
      can leave the finite numbers is the division inside
      [detect_regression], whose result is the type [np_float64] below
      (a finite rational, an infinity or NaN, as numpy produces them).
    - The CSV file is a table of [CsvRow]s: text in the two string columns,
      a number in the two numeric columns.  [read_csv] turns a text cell that
      pandas recognises as missing into a null, [to_csv] writes a null as
      the empty cell.  The string columns are read as text, which is what
      pandas does as soon as one cell of the column cannot be taken for a
      number or a boolean (every timestamp the script writes is such a
      cell); statements about the text or the order of the keys say so in
      a hypothesis.
    - The verdict of [detect_regression] is a strict comparison of float64
      quotients, which rounding can decide.  Module [F64] embeds the
      detector a second time on binary64 numbers and is used where the
      verdict itself is the subject.
    - The outside world (files, spawned processes and their elapsed
      wall-clock times) is an explicit [World] threaded through a small
      state-and-exception monad.  [datetime.now()] is an argument of
      [record_performance]. *)

From Stdlib Require Import List String Ascii Bool ZArith QArith Lia.
From Stdlib Require Import Sorting.Sorted OrderedTypeEx.
From Stdlib Require Import Floats.PrimFloat Numbers.Cyclic.Int63.Uint63.
Import ListNotations.

Set Warnings "-inexact-float".

Local Open Scope string_scope.
Local Open Scope list_scope.
Local Open Scope Q_scope.

(** ** Exceptions and the state-and-exception monad *)

(** The exceptions the script can raise, followed by the two error kinds
    that only the specification names ([InvalidConfig], [InvalidBaseline]);
    no statement of the script raises the latter two. *)
Inductive exn : Type :=
| CalledProcessError
| FileNotFoundError
| ZeroDivisionError
| InvalidConfig
| InvalidBaseline.

Inductive result (A : Type) : Type :=
| Ok (a : A)
| Raise (e : exn).
Arguments Ok {A} a.
Arguments Raise {A} e.

(** A cell of the CSV file as text-and-numbers. *)
Record CsvRow : Type := mkCsvRow {
  cell_timestamp : string;
  cell_compile_time : Q;
  cell_run_time : Q;
  cell_flags : string
}.

(** What [subprocess.run(..., check=True)] meets: the process exits with
    status 0 after [elapsed] seconds of wall-clock time, it exits with
    another status, or the program cannot be started at all. *)
Inductive proc_outcome : Type :=
| Exit0 (elapsed : Q)
| ExitNonZero
| CannotSpawn.

(** [files] is the store of history records: it maps a path, taken as the
    text the script uses for it, to the table that [pd.read_csv] parses
    from the file of that path ([None]: no such file).  Files that are not
    such tables (the C source, the compiled binary, a file [pd.read_csv]
    rejects) are not represented.
    [oracle i] is the fate of the [i]-th process the script will spawn;
    [spawned] logs the command line of every process spawned so far. *)
Record World : Type := mkWorld {
  files : string -> option (list CsvRow);
  oracle : nat -> proc_outcome;
  spawned : list (list string)
}.

Definition M (A : Type) : Type := World -> result A * World.

Definition ret {A : Type} (a : A) : M A := fun w => (Ok a, w).

Definition raise {A : Type} (e : exn) : M A := fun w => (Raise e, w).

Definition bind {A B : Type} (m : M A) (k : A -> M B) : M B :=
  fun w => match m w with
           | (Ok a, w') => k a w'
           | (Raise e, w') => (Raise e, w')
           end.

Declare Scope py_scope.
Delimit Scope py_scope with py.
Notation "x <- m ;; k" := (bind m (fun x => k))
  (at level 100, m at next level, right associativity) : py_scope.
Notation "' p <- m ;; k" := (bind m (fun p => k))
  (at level 100, p pattern, m at next level, right associativity) : py_scope.
Notation "m ;;; k" := (bind m (fun _ => k))
  (at level 100, right associativity) : py_scope.
Local Open Scope py_scope.

(** ** Section 1 of the script: configuration *)

Record Config : Type := mkConfig {
  COMPILER : string;
  TEST_C_FILE : string;
  BASELINE_FLAGS : list string;
  REGRESSION_FLAGS : list string;
  OUTPUT_BINARY : string;
  BASELINE_CSV : string;
  REGRESSION_THRESHOLD_RATIO : Q;
  NUM_RUNS : Z
}.

(** The values the script assigns. *)
Definition script_config : Config :=
  {| COMPILER := "clang";
     TEST_C_FILE := "fibonacci.c";
     BASELINE_FLAGS := ["-O2"];
     REGRESSION_FLAGS := ["-O0"];
     OUTPUT_BINARY := "fib_test";
     BASELINE_CSV := "baseline_performance.csv";
     REGRESSION_THRESHOLD_RATIO := 5 # 100;
     NUM_RUNS := 3 |}.

(** ** Section 3 of the script: compiling and running the benchmark *)

(** [subprocess.run(cmd, check=True)] bracketed by two readings of
    [time.time()]: the command is logged, and the oracle says how long it
    took or that it failed.  A program that cannot be started raises
    [FileNotFoundError] and is not logged. *)
Definition subprocess_run (cmd : list string) : M Q :=
  fun w =>
    let w' := {| files := files w; oracle := oracle w;
                 spawned := spawned w ++ [cmd] |} in
    match oracle w (List.length (spawned w)) with
    | Exit0 elapsed => (Ok elapsed, w')
    | ExitNonZero => (Raise CalledProcessError, w')
    | CannotSpawn => (Raise FileNotFoundError, w)
    end.

Definition compile_program (compiler : string) (flags : list string)
    (source_file output_file : string) : M Q :=
  let cmd := [compiler] ++ flags ++ [source_file; "-o"; output_file] in
  compilation_time <- subprocess_run cmd ;;
  ret compilation_time.

(** The captured standard output is printed and plays no further part. *)
Definition run_program (output_file : string) : M Q :=
  run_time <- subprocess_run [("./" ++ output_file)%string] ;;
  ret run_time.

(** ** Data frames *)

(** A row of the in-memory [DataFrame].  A string cell is [None] when pandas
    holds a missing value (NaN) there. *)
Record Row : Type := mkRow {
  timestamp : option string;
  compile_time : Q;
  run_time : Q;
  flags : option string
}.

Definition DataFrame : Type := list Row.

(** The texts that [pd.read_csv] reads as a missing value by default (the
    list of pandas 2; pandas 1 has all of them but "None").  The first one
    is the empty cell. *)
Definition STR_NA_VALUES : list string :=
  [""; "#N/A"; "#N/A N/A"; "#NA"; "-1.#IND"; "-1.#QNAN"; "-NaN"; "-nan";
   "1.#IND"; "1.#QNAN"; "<NA>"; "N/A"; "NA"; "NULL"; "NaN"; "None"; "n/a";
   "nan"; "null"].

Definition is_na (cell : string) : bool :=
  existsb (String.eqb cell) STR_NA_VALUES.

Definition read_cell (cell : string) : option string :=
  if is_na cell then None else Some cell.

(** [df.to_csv] writes a missing value as the empty cell. *)
Definition write_cell (v : option string) : string :=
  match v with
  | Some s => s
  | None => ""
  end.

Definition read_csv (table : list CsvRow) : DataFrame :=
  map (fun c => {| timestamp := read_cell (cell_timestamp c);
                   compile_time := cell_compile_time c;
                   run_time := cell_run_time c;
                   flags := read_cell (cell_flags c) |}) table.

Definition to_csv (df : DataFrame) : list CsvRow :=
  map (fun r => {| cell_timestamp := write_cell (timestamp r);
                   cell_compile_time := compile_time r;
                   cell_run_time := run_time r;
                   cell_flags := write_cell (flags r) |}) df.

(** ** Section 4 of the script: baseline data handling *)

Definition os_path_exists (path : string) : M bool :=
  fun w => (Ok (match files w path with Some _ => true | None => false end), w).

Definition pd_read_csv (path : string) : M DataFrame :=
  fun w => match files w path with
           | Some table => (Ok (read_csv table), w)
           | None => (Raise FileNotFoundError, w)
           end.

Definition load_baseline_data (baseline_csv : string) : M DataFrame :=
  present <- os_path_exists baseline_csv ;;
  if present : bool then pd_read_csv baseline_csv
  else ret [].

Definition write_file (path : string) (table : list CsvRow) : M unit :=
  fun w => (Ok tt,
            {| files := fun p => if String.eqb p path then Some table
                                 else files w p;
               oracle := oracle w;
               spawned := spawned w |}).

Definition save_baseline_data (df : DataFrame) (baseline_csv : string)
  : M unit :=
  write_file baseline_csv (to_csv df).

(** ** Section 5 of the script: measuring and recording *)

(** Python's [sum] over a list of floats, from the left, starting at 0. *)
Definition py_sum (xs : list Q) : Q := fold_left Qplus xs 0.

(** [total / len(xs)] on Python numbers: division by the integer zero
    raises. *)
Definition py_truediv (total : Q) (len : nat) : M Q :=
  match len with
  | O => raise ZeroDivisionError
  | S _ => ret (total / inject_Z (Z.of_nat len))
  end.

(** The body of [for _ in range(NUM_RUNS)], iterated [n] times. *)
Fixpoint sample_loop (cfg : Config) (compiler : string) (flags : list string)
    (n : nat) (compile_times run_times : list Q) : M (list Q * list Q) :=
  match n with
  | O => ret (compile_times, run_times)
  | S n' =>
      ctime <- compile_program compiler flags (TEST_C_FILE cfg)
                               (OUTPUT_BINARY cfg) ;;
      rtime <- run_program (OUTPUT_BINARY cfg) ;;
      sample_loop cfg compiler flags n'
                  (compile_times ++ [ctime]) (run_times ++ [rtime])
  end.

(** [range(NUM_RUNS)] is empty when [NUM_RUNS] is zero or negative. *)
Definition measure_performance (cfg : Config) (compiler : string)
    (flags : list string) : M (Q * Q) :=
  ' (compile_times, run_times) <-
      sample_loop cfg compiler flags (Z.to_nat (NUM_RUNS cfg)) [] [] ;;
  avg_compile_time <-
      py_truediv (py_sum compile_times) (List.length compile_times) ;;
  avg_run_time <- py_truediv (py_sum run_times) (List.length run_times) ;;
  ret (avg_compile_time, avg_run_time).

(** *** Grouping *)

(** The mean of a numeric column ([Series.mean], [GroupBy.mean]) on a column
    with at least one entry; every use below is on such a column. *)
Definition mean (xs : list Q) : Q :=
  fold_right Qplus 0 xs / inject_Z (Z.of_nat (List.length xs)).

(** Insertion into an ascending list of distinct keys. *)
Fixpoint insert_key (k : string) (ks : list string) : list string :=
  match ks with
  | [] => [k]
  | k' :: ks' =>
      match String.compare k k' with
      | Lt => k :: ks
      | Eq => ks
      | Gt => k' :: insert_key k ks'
      end
  end.

Fixpoint dropna {A : Type} (xs : list (option A)) : list A :=
  match xs with
  | [] => []
  | Some x :: xs' => x :: dropna xs'
  | None :: xs' => dropna xs'
  end.

(** The group keys of [df.groupby('timestamp')]: with the default
    [sort=True] and [dropna=True] these are the distinct non-missing
    timestamps in ascending order. *)
Definition group_keys (df : DataFrame) : list string :=
  fold_right insert_key [] (dropna (map timestamp df)).

Definition has_key (k : string) (r : Row) : bool :=
  match timestamp r with
  | Some t => String.eqb t k
  | None => false
  end.

(** The rows of one group, in the order they have in [df]. *)
Definition get_group (k : string) (df : DataFrame) : DataFrame :=
  filter (has_key k) df.

(** [GroupBy.first] on one column of one group: the first entry that is
    not missing, and missing when there is none. *)
Fixpoint first_valid (cells : list (option string)) : option string :=
  match cells with
  | [] => None
  | Some s :: _ => Some s
  | None :: rest => first_valid rest
  end.

(** The frames [numeric_grouped] and [non_numeric_grouped] after
    [reset_index()]. *)
Record NumericRow : Type := mkNumericRow {
  n_timestamp : string;
  n_compile_time : Q;
  n_run_time : Q
}.

Record NonNumericRow : Type := mkNonNumericRow {
  f_timestamp : string;
  f_flags : option string
}.

Definition groupby_mean (df : DataFrame) : list NumericRow :=
  map (fun k => {| n_timestamp := k;
                   n_compile_time := mean (map compile_time (get_group k df));
                   n_run_time := mean (map run_time (get_group k df)) |})
      (group_keys df).

Definition groupby_first (df : DataFrame) : list NonNumericRow :=
  map (fun k => {| f_timestamp := k;
                   f_flags := first_valid (map flags (get_group k df)) |})
      (group_keys df).

(** [pd.merge(left, right, on='timestamp')]: the inner join, in the order
    of the left frame. *)
Definition merge (left : list NumericRow) (right : list NonNumericRow)
  : DataFrame :=
  flat_map
    (fun l =>
       map (fun r => {| timestamp := Some (n_timestamp l);
                        compile_time := n_compile_time l;
                        run_time := n_run_time l;
                        flags := f_flags r |})
           (filter (fun r => String.eqb (f_timestamp r) (n_timestamp l))
                   right))
    left.

(** [now] is the text of [datetime.now().strftime('%Y-%m-%d %H:%M')] at the
    time of the call. *)
Definition record_performance (cfg : Config) (now : string)
    (compile_time run_time : Q) (flags : list string) : M DataFrame :=
  baseline_df <- load_baseline_data (BASELINE_CSV cfg) ;;
  let new_entry := [ {| timestamp := Some now;
                        compile_time := compile_time;
                        run_time := run_time;
                        flags := Some (String.concat " " flags) |} ] in
  let baseline_df := baseline_df ++ new_entry in
  let numeric_grouped := groupby_mean baseline_df in
  let non_numeric_grouped := groupby_first baseline_df in
  let grouped_df := merge numeric_grouped non_numeric_grouped in
  save_baseline_data grouped_df (BASELINE_CSV cfg) ;;;
  ret grouped_df.

(** ** Section 7 of the script: regression detection *)

(** A value of numpy's [float64]: a finite number, an infinity or NaN. *)
Inductive np_float64 : Type :=
| finite (q : Q)
| pos_inf
| neg_inf
| nan.

(** [x / y] on [float64] scalars: numpy warns on a zero divisor and
    returns an infinity (or NaN for 0/0) instead of raising. *)
Definition np_truediv (x y : Q) : np_float64 :=
  if Qeq_bool y 0 then
    if Qeq_bool x 0 then nan
    else if Qle_bool x 0 then neg_inf
    else pos_inf
  else finite (x / y).

(** [x > y] with a finite [y]: false on NaN. *)
Definition np_gt (x : np_float64) (y : Q) : bool :=
  match x with
  | finite q => negb (Qle_bool q y)
  | pos_inf => true
  | neg_inf => false
  | nan => false
  end.

(** The explanation text: literal pieces (in which [\n] stands for the line
    break) and numbers printed with the format [.4f]. *)
Inductive piece : Type :=
| Text (s : string)
| Fixed4 (x : Q).

Definition message : Type := list piece.

Definition no_baseline_message : message :=
  [Text "No baseline data exists yet."].

Definition regression_message (avg_compile_time new_compile_time
                               avg_run_time new_run_time : Q) : message :=
  [Text "WARNING: Regression detected!\n";
   Text "Compile time changed from avg "; Fixed4 avg_compile_time;
   Text "s to "; Fixed4 new_compile_time; Text "s.\n";
   Text "Run time changed from avg "; Fixed4 avg_run_time;
   Text "s to "; Fixed4 new_run_time; Text "s.\n"].

Definition no_regression_message (avg_compile_time new_compile_time
                                  avg_run_time new_run_time : Q) : message :=
  [Text "No significant regression.\n";
   Text "Compile time: "; Fixed4 new_compile_time;
   Text "s (avg "; Fixed4 avg_compile_time; Text "s)\n";
   Text "Run time: "; Fixed4 new_run_time;
   Text "s (avg "; Fixed4 avg_run_time; Text "s)\n"].

Definition detect_regression (cfg : Config) (new_compile_time new_run_time : Q)
    (baseline_csv : string) : M (bool * message) :=
  df <- load_baseline_data baseline_csv ;;
  if Nat.eqb (List.length df) 0 then
    ret (false, no_baseline_message)
  else
    let avg_compile_time := mean (map compile_time df) in
    let avg_run_time := mean (map run_time df) in
    let compile_regression :=
      np_gt (np_truediv (new_compile_time - avg_compile_time)
                        avg_compile_time)
            (REGRESSION_THRESHOLD_RATIO cfg) in
    let run_regression :=
      np_gt (np_truediv (new_run_time - avg_run_time) avg_run_time)
            (REGRESSION_THRESHOLD_RATIO cfg) in
    if compile_regression || run_regression then
      ret (true, regression_message avg_compile_time new_compile_time
                                    avg_run_time new_run_time)
    else
      ret (false, no_regression_message avg_compile_time new_compile_time
                                        avg_run_time new_run_time).

(** ** The detector on binary64 numbers *)

(** The same [load_baseline_data] and [detect_regression], with the numeric
    cells and the arithmetic in IEEE 754 binary64 as Python and numpy have
    them: subtraction, division and comparison are the primitive float
    operations (a quotient by zero is an infinity or NaN, a comparison
    with NaN is false).  The one thing left open is the order in which
    pandas adds up a column, which depends on the installed libraries: the
    sum is the argument [Series_sum]. *)
Module F64.

Record CsvRow : Type := mkCsvRow {
  cell_timestamp : string;
  cell_compile_time : float;
  cell_run_time : float;
  cell_flags : string
}.

Record Row : Type := mkRow {
  timestamp : option string;
  compile_time : float;
  run_time : float;
  flags : option string
}.

Definition DataFrame : Type := list Row.

Definition Store : Type := string -> option (list CsvRow).

Definition M (A : Type) : Type := Store -> result A * Store.

Definition ret {A : Type} (a : A) : M A := fun st => (Ok a, st).

Definition bind {A B : Type} (m : M A) (k : A -> M B) : M B :=
  fun st => match m st with
            | (Ok a, st') => k a st'
            | (Raise e, st') => (Raise e, st')
            end.

Definition read_csv (table : list CsvRow) : DataFrame :=
  map (fun c => {| timestamp := read_cell (cell_timestamp c);
                   compile_time := cell_compile_time c;
                   run_time := cell_run_time c;
                   flags := read_cell (cell_flags c) |}) table.

Definition os_path_exists (path : string) : M bool :=
  fun st =>
    (Ok (match st path with Some _ => true | None => false end), st).

Definition pd_read_csv (path : string) : M DataFrame :=
  fun st => match st path with
            | Some table => (Ok (read_csv table), st)
            | None => (Raise FileNotFoundError, st)
            end.

Definition load_baseline_data (baseline_csv : string) : M DataFrame :=
  bind (os_path_exists baseline_csv)
       (fun present : bool =>
          if present then pd_read_csv baseline_csv else ret []).

(** The number of entries as a float64. *)
Definition count (n : nat) : float :=
  PrimFloat.of_uint63 (Uint63.of_Z (Z.of_nat n)).

(** [Series.mean] skips the missing (NaN) entries: they are added as
    zeros and not counted; the mean of nothing is NaN. *)
Definition Series_mean (Series_sum : list float -> float)
    (column : list float) : float :=
  let present := filter (fun x => negb (PrimFloat.is_nan x)) column in
  match present with
  | [] => PrimFloat.nan
  | _ :: _ =>
      PrimFloat.div
        (Series_sum (map (fun x => if PrimFloat.is_nan x then 0%float
                                   else x) column))
        (count (List.length present))
  end.


Inductive piece : Type :=
| Text (s : string)
| Fixed4 (x : float).

Definition message : Type := list piece.

Definition regression_message (avg_compile_time new_compile_time
                               avg_run_time new_run_time : float)
  : message :=
  [Text "WARNING: Regression detected!\n";
   Text "Compile time changed from avg "; Fixed4 avg_compile_time;
   Text "s to "; Fixed4 new_compile_time; Text "s.\n";
   Text "Run time changed from avg "; Fixed4 avg_run_time;
   Text "s to "; Fixed4 new_run_time; Text "s.\n"].

Definition no_regression_message (avg_compile_time new_compile_time
                                  avg_run_time new_run_time : float)
  : message :=
  [Text "No significant regression.\n";
   Text "Compile time: "; Fixed4 new_compile_time;
   Text "s (avg "; Fixed4 avg_compile_time; Text "s)\n";
   Text "Run time: "; Fixed4 new_run_time;
   Text "s (avg "; Fixed4 avg_run_time; Text "s)\n"].

Definition detect_regression (Series_sum : list float -> float)
    (REGRESSION_THRESHOLD_RATIO new_compile_time new_run_time : float)
    (baseline_csv : string) : M (bool * message) :=
  bind (load_baseline_data baseline_csv)
    (fun df =>
       if Nat.eqb (List.length df) 0 then
         ret (false, [Text "No baseline data exists yet."])
       else
         let avg_compile_time :=
           Series_mean Series_sum (map compile_time df) in
         let avg_run_time := Series_mean Series_sum (map run_time df) in
         let compile_regression :=
           PrimFloat.ltb REGRESSION_THRESHOLD_RATIO
             (PrimFloat.div
                (PrimFloat.sub new_compile_time avg_compile_time)
                avg_compile_time) in
         let run_regression :=
           PrimFloat.ltb REGRESSION_THRESHOLD_RATIO
             (PrimFloat.div (PrimFloat.sub new_run_time avg_run_time)
                            avg_run_time) in
         if compile_regression || run_regression then
           ret (true, regression_message avg_compile_time
                        new_compile_time avg_run_time new_run_time)
         else
           ret (false, no_regression_message avg_compile_time
                         new_compile_time avg_run_time new_run_time)).

End F64.

(** ** Section 6 of the script: the data behind the plot *)

(** What [plot_performance_history] hands to matplotlib: nothing when the
    frame is empty, otherwise the rows that survive
    [pd.to_datetime(..., errors='coerce')] followed by [dropna]; the
    reference line is drawn at the mean run time of those rows.  [parses]
    says which texts [pd.to_datetime] can convert. *)
Definition plot_performance_history (cfg : Config) (parses : string -> bool)
  : M (option DataFrame) :=
  df <- load_baseline_data (BASELINE_CSV cfg) ;;
  if Nat.eqb (List.length df) 0 then ret None
  else
    let df := filter (fun r => match timestamp r with
                               | Some t => parses t
                               | None => false
                               end) df in
    ret (Some df).

(** ** Section 8 of the script: the full pipeline *)

(** [main_flow] measures and records the baseline flags, measures and
    records the regression flags, detects against the record just written
    and plots.  The script prints the explanation and returns nothing; here
    the verdict, the explanation and the plotted frame are returned so that
    they can be observed.  [now_baseline] and [now_regression] are the
    texts of [datetime.now()] at the two recordings. *)
Definition main_flow (cfg : Config) (parses : string -> bool)
    (now_baseline now_regression : string)
  : M (bool * message * option DataFrame) :=
  ' (baseline_compile_time, baseline_run_time) <-
      measure_performance cfg (COMPILER cfg) (BASELINE_FLAGS cfg) ;;
  record_performance cfg now_baseline baseline_compile_time
                     baseline_run_time (BASELINE_FLAGS cfg) ;;;
  ' (regression_compile_time, regression_run_time) <-
      measure_performance cfg (COMPILER cfg) (REGRESSION_FLAGS cfg) ;;
  record_performance cfg now_regression regression_compile_time
                     regression_run_time (REGRESSION_FLAGS cfg) ;;;
  ' (regression_detected, message) <-
      detect_regression cfg regression_compile_time regression_run_time
                        (BASELINE_CSV cfg) ;;
  plotted <- plot_performance_history cfg parses ;;
  ret (regression_detected, message, plotted).

(** ** The specification's regression predicate *)

(** [(new - avg) / avg > threshold_ratio], with strict inequality.  The
    quotient is the rational one when [avg] is not zero; a positive
    numerator over a zero [avg] gives plus infinity, which exceeds every
    threshold, and no other quotient by zero exceeds any. *)
Inductive exceeds (threshold_ratio new avg : Q) : Prop :=
| exceeds_finite :
    ~ avg == 0 -> threshold_ratio < (new - avg) / avg ->
    exceeds threshold_ratio new avg
| exceeds_infinite :
    avg == 0 -> 0 < new - avg -> exceeds threshold_ratio new avg.

(** The history a load of [path] sees in world [w]. *)
Definition stored_history (path : string) (w : World) : DataFrame :=
  match files w path with
  | Some table => read_csv table
  | None => []
  end.

(** Ascending order of keys, as Python compares strings. *)
Definition key_lt (a b : string) : Prop := String.compare a b = Lt.

(** The row that [record_performance] builds for the group of key [k]. *)
Definition grouped_row (df : DataFrame) (k : string) : Row :=
  {| timestamp := Some k;
     compile_time := mean (map compile_time (get_group k df));
     run_time := mean (map run_time (get_group k df));
     flags := first_valid (map flags (get_group k df)) |}.

(** The frame [record_performance] builds from the concatenated frame:
    one such row per group key, keys ascending. *)
Definition regroup (df : DataFrame) : DataFrame :=
  map (grouped_row df) (group_keys df).

(** The row a call of [record_performance] appends before grouping. *)
Definition new_entry (now : string) (compile_time run_time : Q)
    (flags : list string) : Row :=
  {| timestamp := Some now;
     compile_time := compile_time;
     run_time := run_time;
     flags := Some (String.concat " " flags) |}.

(** The specification's reading of the descriptive column: the value in
    the first row of the group. *)
Definition flags_of_first_row (group : DataFrame) : option string :=
  match group with
  | [] => None
  | r :: _ => flags r
  end.

(** A text of the shape [strftime('%Y-%m-%d %H:%M')] writes:
    [dddd-dd-dd dd:dd]. *)
Definition is_digit (c : ascii) : bool :=
  (Nat.leb 48 (nat_of_ascii c) && Nat.leb (nat_of_ascii c) 57)%bool.

Fixpoint matches_shape (shape : list (option ascii)) (s : string) : bool :=
  match shape, s with
  | [], EmptyString => true
  | None :: shape', String c s' => (is_digit c && matches_shape shape' s')%bool
  | Some d :: shape', String c s' =>
      (Ascii.eqb c d && matches_shape shape' s')%bool
  | _, _ => false
  end.

Definition minute_format (s : string) : bool :=
  matches_shape
    [None; None; None; None; Some "-"%char; None; None; Some "-"%char;
     None; None; Some " "%char; None; None; Some ":"%char; None; None] s.

(** The two command lines of one sample, and the log of [n] samples taken
    one after the other. *)
Definition compile_cmd (cfg : Config) (compiler : string)
    (flags : list string) : list string :=
  [compiler] ++ flags ++ [TEST_C_FILE cfg; "-o"; OUTPUT_BINARY cfg].

Definition run_cmd (cfg : Config) : list string :=
  [("./" ++ OUTPUT_BINARY cfg)%string].

Definition sampler_calls (cfg : Config) (compiler : string)
    (flags : list string) (n : nat) : list (list string) :=
  List.concat (repeat [compile_cmd cfg compiler flags; run_cmd cfg] n).

(** The processes spawned from rank [start] on succeed and take the times
    listed in [samples], a compile time and a run time per sample. *)
Fixpoint answers (oracle : nat -> proc_outcome) (start : nat)
    (samples : list (Q * Q)) : Prop :=
  match samples with
  | [] => True
  | (c, r) :: rest =>
      oracle start = Exit0 c /\ oracle (S start) = Exit0 r
      /\ answers oracle (S (S start)) rest
  end.

(** The characters that occur in the texts [pd.read_csv] takes for a
    number or a boolean: digits, signs, the point, the exponent letter,
    blanks, and the letters of [inf], [infinity], [nan], [true] and
    [false] in either case. *)
Definition number_alphabet : list ascii :=
  Ascii.ascii_of_nat 9
  :: list_ascii_of_string "0123456789+-. eEiInNfFtTyYaArRuUlLsS".

(** A cell with a character outside that alphabet cannot be taken for a
    number or a boolean; a column with such a cell is read as text. *)
Definition surely_text (cell : string) : bool :=
  existsb (fun c => negb (existsb (Ascii.eqb c) number_alphabet))
          (list_ascii_of_string cell).

(** ** Worlds used in the examples *)

Definition no_files : World :=
  {| files := fun _ => None; oracle := fun _ => ExitNonZero; spawned := [] |}.

Definition world_with (path : string) (table : list CsvRow) : World :=
  {| files := fun p => if String.eqb p path then Some table else None;
     oracle := fun _ => ExitNonZero;
     spawned := [] |}.

(** Every process takes as many seconds as its rank among the spawned
    ones. *)
Definition steady_world : World :=
  {| files := fun _ => None;
     oracle := fun i => Exit0 (inject_Z (Z.of_nat i));
     spawned := [] |}.

(** A history whose two averages are 10 seconds. *)
Definition two_equal_rows : list CsvRow :=
  [ {| cell_timestamp := "2024-05-01 10:00"; cell_compile_time := 10;
       cell_run_time := 10; cell_flags := "-O2" |};
    {| cell_timestamp := "2024-05-01 10:05"; cell_compile_time := 10;
       cell_run_time := 10; cell_flags := "-O0" |} ].


(** A durable record with one unparseable timestamp and two valid ones. *)
Definition corrupt_record : list CsvRow :=
  [ {| cell_timestamp := "not-a-date"; cell_compile_time := 1;
       cell_run_time := 2; cell_flags := "-O2" |};
    {| cell_timestamp := "2024-05-01 10:00"; cell_compile_time := 1;
       cell_run_time := 2; cell_flags := "-O2" |};
    {| cell_timestamp := "2024-05-01 10:05"; cell_compile_time := 3;
       cell_run_time := 4; cell_flags := "-O0" |} ].

(** The script's configuration with another sample count. *)
Definition config_with_runs (n : Z) : Config :=
  {| COMPILER := COMPILER script_config;
     TEST_C_FILE := TEST_C_FILE script_config;
     BASELINE_FLAGS := BASELINE_FLAGS script_config;
     REGRESSION_FLAGS := REGRESSION_FLAGS script_config;
     OUTPUT_BINARY := OUTPUT_BINARY script_config;
     BASELINE_CSV := BASELINE_CSV script_config;
     REGRESSION_THRESHOLD_RATIO := REGRESSION_THRESHOLD_RATIO script_config;
     NUM_RUNS := n |}.

(** A durable record whose only row is dated one day after the
    measurement recorded next in the example. *)
Definition next_day_record : list CsvRow :=
  [ {| cell_timestamp := "2024-05-02 10:00"; cell_compile_time := 1;
       cell_run_time := 2; cell_flags := "-O2" |} ].

(** The world after the script, started without a record file, has recorded
    a measurement taken with an empty list of flags. *)
Definition world_after_flagless_record : World :=
  snd (record_performance script_config "2024-05-01 10:00" 1 1 [] no_files).

(** A string cell that survives a trip through the file: it is missing, or
    its text is not one that [read_csv] takes for a missing value. *)
Definition survives_csv (cell : option string) : Prop :=
  match cell with
  | Some s => is_na s = false
  | None => True
  end.

Definition has_timestamp (r : Row) : bool :=
  match timestamp r with
  | Some _ => true
  | None => false
  end.

(** The first process succeeds, the second one (the first run of the
    benchmark) fails. *)
Definition run_fails_world : World :=
  {| files := fun _ => None;
     oracle := fun i => match i with O => Exit0 2 | _ => ExitNonZero end;
     spawned := [] |}.

(** The six processes of the baseline measurement succeed, the seventh (the
    first compilation with the regression flags) fails. *)
Definition regression_build_fails_world : World :=
  {| files := fun _ => None;
     oracle := fun i => if Nat.ltb i 6 then Exit0 1 else ExitNonZero;
     spawned := [] |}.

(** A record with a row whose timestamp cell is empty. *)
Definition record_with_blank_timestamp : list CsvRow :=
  [ {| cell_timestamp := ""; cell_compile_time := 9;
       cell_run_time := 9; cell_flags := "-O3" |};
    {| cell_timestamp := "2024-05-01 10:00"; cell_compile_time := 1;
       cell_run_time := 2; cell_flags := "-O2" |} ].

(** The script's configuration with another threshold ratio. *)
Definition config_with_threshold (t : Q) : Config :=
  {| COMPILER := COMPILER script_config;
     TEST_C_FILE := TEST_C_FILE script_config;
     BASELINE_FLAGS := BASELINE_FLAGS script_config;
     REGRESSION_FLAGS := REGRESSION_FLAGS script_config;
     OUTPUT_BINARY := OUTPUT_BINARY script_config;
     BASELINE_CSV := BASELINE_CSV script_config;
     REGRESSION_THRESHOLD_RATIO := t;
     NUM_RUNS := NUM_RUNS script_config |}.



(** * Properties *)

(** ** Loading *)

Lemma load_baseline_data_eq (path : string) (w : World) :
  load_baseline_data path w = (Ok (stored_history path w), w).
Proof.
  unfold load_baseline_data, bind, os_path_exists, pd_read_csv,
    stored_history, ret.
  destruct (files w path) eqn:E; [rewrite E|]; reflexivity.
Qed.

Lemma load_inv (path : string) (w w' : World) (df : DataFrame) :
  load_baseline_data path w = (Ok df, w') ->
  df = stored_history path w /\ w' = w.
Proof.
  rewrite load_baseline_data_eq. intros H; inversion H; auto.
Qed.

Lemma read_csv_length (table : list CsvRow) :
  List.length (read_csv table) = List.length table.
Proof. unfold read_csv. apply length_map. Qed.

(** ** Detection *)

Lemma np_gt_truediv_iff (thr new avg : Q) :
  np_gt (np_truediv (new - avg) avg) thr = true <-> exceeds thr new avg.
Proof.
  unfold np_truediv.
  destruct (Qeq_bool avg 0) eqn:Havg.
  - apply Qeq_bool_iff in Havg.
    destruct (Qeq_bool (new - avg) 0) eqn:Hnum.
    + apply Qeq_bool_iff in Hnum. simpl. split; [discriminate|].
      intros [Hne _ | _ Hpos]; [contradiction|].
      rewrite Hnum in Hpos. exfalso. apply (Qlt_irrefl 0). exact Hpos.
    + destruct (Qle_bool (new - avg) 0) eqn:Hle; simpl.
      * apply Qle_bool_iff in Hle. split; [discriminate|].
        intros [Hne _ | _ Hpos]; [contradiction|].
        exfalso. apply (Qlt_irrefl 0). eapply Qlt_le_trans; eassumption.
      * split; [intros _|reflexivity].
        apply exceeds_infinite; [exact Havg|].
        apply Qnot_le_lt. intros Hle'. apply Qle_bool_iff in Hle'. congruence.
  - assert (Hne : ~ avg == 0).
    { intros E. apply Qeq_bool_iff in E. congruence. }
    simpl. destruct (Qle_bool ((new - avg) / avg) thr) eqn:Hle; simpl.
    + apply Qle_bool_iff in Hle. split; [discriminate|].
      intros [_ Hlt | E _]; [|contradiction].
      exfalso. apply (Qlt_irrefl thr). eapply Qlt_le_trans; eassumption.
    + split; [intros _|reflexivity].
      apply exceeds_finite; [exact Hne|].
      apply Qnot_le_lt. intros Hle'. apply Qle_bool_iff in Hle'. congruence.
Qed.

Lemma detect_regression_eq (cfg : Config) (nc nr : Q) (path : string)
    (w : World) :
  detect_regression cfg nc nr path w =
  let df := stored_history path w in
  let avg_c := mean (map compile_time df) in
  let avg_r := mean (map run_time df) in
  (Ok (match df with
       | [] => (false, no_baseline_message)
       | _ :: _ =>
           if np_gt (np_truediv (nc - avg_c) avg_c)
                    (REGRESSION_THRESHOLD_RATIO cfg)
              || np_gt (np_truediv (nr - avg_r) avg_r)
                       (REGRESSION_THRESHOLD_RATIO cfg)
           then (true, regression_message avg_c nc avg_r nr)
           else (false, no_regression_message avg_c nc avg_r nr)
       end), w).
Proof.
  unfold detect_regression, bind. rewrite load_baseline_data_eq.
  destruct (stored_history path w) as [|r df]; [reflexivity|].
  cbv zeta. change (Nat.eqb (List.length (r :: df)) 0) with false. cbv iota.
  match goal with |- context [if ?c then _ else _] => destruct c end;
    reflexivity.
Qed.


Lemma detect_regression_verdict
    (cfg : Config) (nc nr : Q) (path : string) (w : World)
    (history : DataFrame) :
  load_baseline_data path w = (Ok history, w) ->
  history <> [] ->
  exists (is_regression : bool) (explanation : message),
    detect_regression cfg nc nr path w = (Ok (is_regression, explanation), w)
    /\ (is_regression = true <->
        exceeds (REGRESSION_THRESHOLD_RATIO cfg) nc
                (mean (map compile_time history))
        \/ exceeds (REGRESSION_THRESHOLD_RATIO cfg) nr
                   (mean (map run_time history))).
Proof.
  intros Hload Hne. apply load_inv in Hload. destruct Hload as [-> _].
  rewrite detect_regression_eq. cbv zeta.
  destruct (stored_history path w) as [|r df] eqn:Hdf; [contradiction|].
  match goal with |- context [if ?c then _ else _] => destruct c eqn:Hb end;
    eexists; eexists; (split; [reflexivity|]);
    rewrite <- !np_gt_truediv_iff, <- orb_true_iff, Hb; split; congruence.
Qed.

Lemma f64_load_baseline_data_eq (path : string) (st : F64.Store) :
  F64.load_baseline_data path st
  = (Ok (match st path with
         | Some table => F64.read_csv table
         | None => []
         end), st).
Proof.
  unfold F64.load_baseline_data, F64.bind, F64.os_path_exists,
    F64.pd_read_csv, F64.ret.
  destruct (st path) eqn:E; [rewrite E|]; reflexivity.
Qed.




(** C4.  On the empty history (no file, or a file without rows)
    [detect_regression] returns [False] with the text "No baseline data
    exists yet." and raises nothing. *)
Theorem detect_regression_empty_history
    (cfg : Config) (new_compile_time new_run_time : Q) (path : string)
    (w : World) :
  load_baseline_data path w = (Ok [], w) ->
  detect_regression cfg new_compile_time new_run_time path w
    = (Ok (false, [Text "No baseline data exists yet."]), w).
Proof.
  intros Hload. apply load_inv in Hload. destruct Hload as [Hempty _].
  rewrite detect_regression_eq. cbv zeta. rewrite <- Hempty. reflexivity.
Qed.

Lemma detect_regression_empty_history_witness :
  detect_regression script_config 1 2 "baseline_performance.csv" no_files
    = (Ok (false, [Text "No baseline data exists yet."]), no_files).
Proof.
  apply (detect_regression_empty_history script_config 1 2
           "baseline_performance.csv" no_files).
  reflexivity.
Defined.




(** C10.  [detect_regression] hands back the world it was given: the files
    are untouched, so a load of any path sees the same history after the
    call as before it. *)
Theorem detect_regression_leaves_store_unchanged
    (cfg : Config) (new_compile_time new_run_time : Q) (path : string)
    (w : World) :
  snd (detect_regression cfg new_compile_time new_run_time path w) = w
  /\ forall p : string,
       load_baseline_data p
         (snd (detect_regression cfg new_compile_time new_run_time path w))
       = load_baseline_data p w.
Proof.
  assert (H : snd (detect_regression cfg new_compile_time new_run_time path w)
              = w).
  { rewrite detect_regression_eq. reflexivity. }
  split; [exact H|]. intros p. rewrite H. reflexivity.
Qed.

(** ** Measuring *)

Lemma py_sum_fold_right (xs : list Q) :
  py_sum xs == fold_right Qplus 0 xs.
Proof.
  unfold py_sum.
  assert (H : forall a, fold_left Qplus xs a == a + fold_right Qplus 0 xs).
  { induction xs as [|x xs IH]; intros a; simpl.
    - ring.
    - rewrite IH. ring. }
  rewrite H. ring.
Qed.

Lemma sample_loop_succeeds (cfg : Config) (compiler : string)
    (flags : list string) (samples : list (Q * Q)) :
  forall (compile_times run_times : list Q) (w : World),
    answers (oracle w) (List.length (spawned w)) samples ->
    sample_loop cfg compiler flags (List.length samples)
                compile_times run_times w
    = (Ok (compile_times ++ map fst samples, run_times ++ map snd samples),
       {| files := files w; oracle := oracle w;
          spawned := spawned w
                     ++ sampler_calls cfg compiler flags
                                      (List.length samples) |}).
Proof.
  induction samples as [|[c r] rest IH]; intros cts rts w Hans.
  - simpl. unfold ret, sampler_calls. simpl. rewrite !app_nil_r.
    destruct w; reflexivity.
  - simpl in Hans. destruct Hans as (Hc & Hr & Hrest).
    simpl sample_loop. unfold bind at 1.
    unfold compile_program, bind at 1, subprocess_run at 1. rewrite Hc.
    unfold ret at 1. unfold bind at 1, run_program, bind at 1.
    unfold subprocess_run at 1. cbn [oracle spawned files].
    rewrite length_app, Nat.add_1_r, Hr. unfold ret at 1.
    rewrite IH.
    + cbn [oracle spawned files map fst snd List.length].
      rewrite <- !app_assoc. reflexivity.
    + cbn [oracle spawned files].
      rewrite !length_app, !Nat.add_1_r. exact Hrest.
Qed.

(** C6.  With a sample count [n >= 1] and [n] samples that all succeed,
    [measure_performance] runs exactly [n] compile-and-run cycles one after
    the other and returns, for each metric on its own, the arithmetic mean
    of the [n] sampled values. *)
Theorem measure_performance_mean
    (cfg : Config) (compiler : string) (flags : list string)
    (samples : list (Q * Q)) (w : World) :
  (NUM_RUNS cfg >= 1)%Z ->
  Z.of_nat (List.length samples) = NUM_RUNS cfg ->
  answers (oracle w) (List.length (spawned w)) samples ->
  exists (avg_compile_time avg_run_time : Q) (w' : World),
    measure_performance cfg compiler flags w
      = (Ok (avg_compile_time, avg_run_time), w')
    /\ avg_compile_time == mean (map fst samples)
    /\ avg_run_time == mean (map snd samples)
    /\ spawned w' = spawned w
                    ++ sampler_calls cfg compiler flags
                                     (Z.to_nat (NUM_RUNS cfg))
    /\ files w' = files w.
Proof.
  intros Hn Hlen Hans.
  assert (Hnat : Z.to_nat (NUM_RUNS cfg) = List.length samples) by lia.
  unfold measure_performance, bind at 1.
  rewrite Hnat, (sample_loop_succeeds cfg compiler flags samples [] [] w Hans).
  cbn [app].
  destruct samples as [|s rest]; [simpl in Hlen; lia|].
  set (all := s :: rest).
  assert (Hc : List.length (map fst all) = S (List.length rest))
    by (unfold all; simpl; rewrite length_map; reflexivity).
  assert (Hr : List.length (map snd all) = S (List.length rest))
    by (unfold all; simpl; rewrite length_map; reflexivity).
  unfold bind, py_truediv, ret. rewrite Hc, Hr.
  do 3 eexists. split; [reflexivity|].
  cbn [spawned files]. unfold mean. rewrite Hc, Hr, !py_sum_fold_right.
  repeat split; reflexivity.
Qed.

Lemma measure_performance_mean_witness :
  exists (avg_compile_time avg_run_time : Q) (w' : World),
    measure_performance script_config "clang" ["-O2"] steady_world
      = (Ok (avg_compile_time, avg_run_time), w')
    /\ avg_compile_time == mean (map fst [(0, 1); (2, 3); (4, 5)])
    /\ avg_run_time == mean (map snd [(0, 1); (2, 3); (4, 5)])
    /\ spawned w' = spawned steady_world
                    ++ sampler_calls script_config "clang" ["-O2"]
                                     (Z.to_nat (NUM_RUNS script_config))
    /\ files w' = files steady_world.
Proof.
  apply (measure_performance_mean script_config "clang" ["-O2"]
           [(0, 1); (2, 3); (4, 5)] steady_world).
  - simpl. lia.
  - reflexivity.
  - simpl. repeat split; reflexivity.
Defined.

(** C8, as stated, fails: with a sample count of 0 the error raised is
    Python's [ZeroDivisionError], not [InvalidConfig]. *)
Lemma measure_performance_zero_runs_error :
  fst (measure_performance (config_with_runs 0) "clang" ["-O2"] steady_world)
    = Raise ZeroDivisionError
  /\ fst (measure_performance (config_with_runs 0) "clang" ["-O2"]
            steady_world)
     <> Raise InvalidConfig.
Proof. split; [reflexivity | discriminate]. Qed.

(** C8, amended.  With a sample count below 1, [measure_performance] fails
    before any process is spawned (the world is handed back as it was), and
    the failure is the [ZeroDivisionError] of averaging an empty list of
    samples. *)
Theorem measure_performance_no_runs
    (cfg : Config) (compiler : string) (flags : list string) (w : World) :
  (NUM_RUNS cfg < 1)%Z ->
  measure_performance cfg compiler flags w = (Raise ZeroDivisionError, w).
Proof.
  intros Hn. unfold measure_performance.
  replace (Z.to_nat (NUM_RUNS cfg)) with O by lia.
  reflexivity.
Qed.

Lemma measure_performance_no_runs_witness :
  measure_performance (config_with_runs (-2)) "clang" ["-O2"] steady_world
    = (Raise ZeroDivisionError, steady_world).
Proof.
  apply (measure_performance_no_runs (config_with_runs (-2)) "clang" ["-O2"]
           steady_world).
  simpl. lia.
Defined.

(** ** Loading a partly corrupt record *)

(** C7, as stated, fails: the record with one unparseable timestamp and two
    valid ones loads to three rows, the unparseable one first. *)
Lemma load_keeps_unparseable_row :
  fst (load_baseline_data "baseline_performance.csv"
         (world_with "baseline_performance.csv" corrupt_record))
    = Ok (read_csv corrupt_record)
  /\ List.length (read_csv corrupt_record) = 3%nat
  /\ map timestamp (read_csv corrupt_record)
     = [Some "not-a-date"; Some "2024-05-01 10:00"; Some "2024-05-01 10:05"]
  /\ map minute_format
         ["not-a-date"; "2024-05-01 10:00"; "2024-05-01 10:05"]
     = [false; true; true].
Proof. repeat split; reflexivity. Qed.

(** C7, amended.  A load of a durable record that [pd.read_csv] parses
    succeeds and returns one row per row of the record, in the order of
    the file, with the numbers of that row; nothing is dropped at load.
    In particular a row whose timestamp is a text that is no date (it is
    not a missing-value text and cannot be taken for a number) is returned
    with that text as its timestamp. *)
Theorem load_returns_every_row
    (path : string) (w : World) (table : list CsvRow) :
  files w path = Some table ->
  exists df : DataFrame,
    load_baseline_data path w = (Ok df, w)
    /\ List.length df = List.length table
    /\ map compile_time df = map cell_compile_time table
    /\ map run_time df = map cell_run_time table
    /\ forall (i : nat) (c : CsvRow),
         nth_error table i = Some c ->
         surely_text (cell_timestamp c) = true ->
         is_na (cell_timestamp c) = false ->
         exists r : Row,
           nth_error df i = Some r
           /\ timestamp r = Some (cell_timestamp c)
           /\ compile_time r = cell_compile_time c
           /\ run_time r = cell_run_time c.
Proof.
  intros Hfile. exists (read_csv table).
  split.
  { rewrite load_baseline_data_eq. unfold stored_history.
    rewrite Hfile. reflexivity. }
  split; [apply read_csv_length|].
  unfold read_csv. rewrite !map_map. cbn [compile_time run_time].
  split; [reflexivity|]. split; [reflexivity|].
  intros i c Hnth _ Hna. eexists. split.
  - rewrite nth_error_map, Hnth. reflexivity.
  - cbn [timestamp compile_time run_time]. unfold read_cell. rewrite Hna.
    repeat split.
Qed.

Lemma load_returns_every_row_witness :
  exists df : DataFrame,
    load_baseline_data "baseline_performance.csv"
      (world_with "baseline_performance.csv" corrupt_record)
      = (Ok df, world_with "baseline_performance.csv" corrupt_record)
    /\ List.length df = 3%nat
    /\ exists r : Row,
         nth_error df 0 = Some r /\ timestamp r = Some "not-a-date".
Proof.
  destruct (load_returns_every_row "baseline_performance.csv"
              (world_with "baseline_performance.csv" corrupt_record)
              corrupt_record eq_refl)
    as (df & Hload & Hlen & _ & _ & Hrows).
  exists df. split; [exact Hload|]. split; [exact Hlen|].
  destruct (Hrows 0%nat
              {| cell_timestamp := "not-a-date"; cell_compile_time := 1;
                 cell_run_time := 2; cell_flags := "-O2" |}
              eq_refl eq_refl eq_refl) as (r & Hr & Ht & _).
  exists r. split; [exact Hr | exact Ht].
Defined.

(** ** Group keys *)

Lemma key_lt_trans (a b c : string) : key_lt a b -> key_lt b c -> key_lt a c.
Proof.
  unfold key_lt. intros Hab Hbc.
  apply String_as_OT.cmp_lt. apply String_as_OT.cmp_lt in Hab, Hbc.
  eapply String_as_OT.lt_trans; eassumption.
Qed.

Lemma key_lt_irrefl (a : string) : ~ key_lt a a.
Proof.
  unfold key_lt. intros H.
  pose proof (String.compare_antisym a a) as E.
  rewrite H in E. discriminate E.
Qed.

Lemma compare_Gt_key_lt (a b : string) :
  String.compare a b = Gt -> key_lt b a.
Proof.
  unfold key_lt. intros H. rewrite String.compare_antisym, H. reflexivity.
Qed.

Lemma insert_key_In (k x : string) (ks : list string) :
  In x (insert_key k ks) <-> x = k \/ In x ks.
Proof.
  induction ks as [|k' ks IH]; simpl.
  - intuition congruence.
  - destruct (String.compare k k') eqn:E; simpl.
    + apply String.compare_eq_iff in E. subst k'. intuition congruence.
    + intuition congruence.
    + rewrite IH. intuition congruence.
Qed.

Lemma insert_key_sorted (k : string) (ks : list string) :
  StronglySorted key_lt ks -> StronglySorted key_lt (insert_key k ks).
Proof.
  induction ks as [|k' ks IH]; intros Hs; simpl.
  - constructor; constructor.
  - inversion Hs as [|? ? Hs' Hall]; subst.
    destruct (String.compare k k') eqn:E.
    + exact Hs.
    + constructor; [exact Hs|]. constructor; [exact E|].
      eapply Forall_impl; [|exact Hall].
      intros x Hx. eapply key_lt_trans; [exact E|exact Hx].
    + constructor; [apply IH; exact Hs'|].
      apply Forall_forall. intros x Hx. apply insert_key_In in Hx.
      destruct Hx as [-> | Hx].
      * apply compare_Gt_key_lt. exact E.
      * rewrite Forall_forall in Hall. apply Hall. exact Hx.
Qed.

Lemma dropna_In {A : Type} (x : A) (xs : list (option A)) :
  In x (dropna xs) <-> In (Some x) xs.
Proof.
  induction xs as [|[y|] xs IH]; simpl.
  - reflexivity.
  - rewrite IH. intuition congruence.
  - rewrite IH. intuition congruence.
Qed.

Lemma group_keys_sorted (df : DataFrame) :
  StronglySorted key_lt (group_keys df).
Proof.
  unfold group_keys.
  induction (dropna (map timestamp df)) as [|k ks IH]; simpl.
  - constructor.
  - apply insert_key_sorted. exact IH.
Qed.

Lemma group_keys_In (k : string) (df : DataFrame) :
  In k (group_keys df) <-> In (Some k) (map timestamp df).
Proof.
  unfold group_keys. rewrite <- dropna_In.
  induction (dropna (map timestamp df)) as [|k' ks IH]; simpl.
  - reflexivity.
  - rewrite insert_key_In, IH. intuition congruence.
Qed.

Lemma sorted_keys_NoDup (ks : list string) :
  StronglySorted key_lt ks -> NoDup ks.
Proof.
  induction 1 as [|k ks Hs IH Hall]; constructor.
  - intros Hin. rewrite Forall_forall in Hall.
    exact (key_lt_irrefl k (Hall k Hin)).
  - exact IH.
Qed.

Lemma group_keys_NoDup (df : DataFrame) : NoDup (group_keys df).
Proof. apply sorted_keys_NoDup, group_keys_sorted. Qed.

Lemma has_key_iff (k : string) (r : Row) :
  has_key k r = true <-> timestamp r = Some k.
Proof.
  unfold has_key. destruct (timestamp r) as [t|].
  - rewrite String.eqb_eq. split; congruence.
  - split; discriminate.
Qed.


(** ** Merging the two grouped frames *)

Lemma filter_key_absent {B : Type} (p : B -> bool) (g : string -> B)
    (k : string) (ks : list string) :
  (forall x, p (g x) = String.eqb x k) -> ~ In k ks ->
  filter p (map g ks) = [].
Proof.
  intros Hp. induction ks as [|k' ks IH]; intros Hnot; simpl.
  - reflexivity.
  - rewrite Hp. destruct (String.eqb_spec k' k) as [->|Hne].
    + exfalso. apply Hnot. left. reflexivity.
    + apply IH. intros Hin. apply Hnot. right. exact Hin.
Qed.

Lemma filter_key_unique {B : Type} (p : B -> bool) (g : string -> B)
    (k : string) (ks : list string) :
  (forall x, p (g x) = String.eqb x k) -> NoDup ks -> In k ks ->
  filter p (map g ks) = [g k].
Proof.
  intros Hp. induction ks as [|k' ks IH]; intros Hnd Hin; simpl.
  - destruct Hin.
  - inversion Hnd as [|? ? Hnot Hnd']; subst. rewrite Hp.
    destruct (String.eqb_spec k' k) as [->|Hne].
    + rewrite (filter_key_absent p g k ks Hp Hnot). reflexivity.
    + destruct Hin as [E|Hin]; [contradiction|]. apply IH; assumption.
Qed.

Lemma merge_grouped (df : DataFrame) :
  merge (groupby_mean df) (groupby_first df)
  = map (grouped_row df) (group_keys df).
Proof.
  unfold merge, groupby_mean, groupby_first.
  pose proof (group_keys_NoDup df) as Hnd.
  assert (H : forall ks',
    (forall k, In k ks' -> In k (group_keys df)) ->
    flat_map
      (fun l =>
         map (fun r => {| timestamp := Some (n_timestamp l);
                          compile_time := n_compile_time l;
                          run_time := n_run_time l;
                          flags := f_flags r |})
             (filter (fun r => String.eqb (f_timestamp r) (n_timestamp l))
                (map (fun k => {| f_timestamp := k;
                                  f_flags := first_valid
                                    (map flags (get_group k df)) |})
                     (group_keys df))))
      (map (fun k => {| n_timestamp := k;
                        n_compile_time :=
                          mean (map compile_time (get_group k df));
                        n_run_time := mean (map run_time (get_group k df)) |})
           ks')
    = map (grouped_row df) ks').
  { induction ks' as [|k ks' IH]; intros Hsub; simpl.
    - reflexivity.
    - rewrite (filter_key_unique
                 (fun r => String.eqb (f_timestamp r) k)
                 (fun x => {| f_timestamp := x;
                              f_flags := first_valid
                                (map flags (get_group x df)) |})
                 k (group_keys df)
                 (fun x => eq_refl) Hnd (Hsub k (or_introl eq_refl))).
      simpl. f_equal. apply IH. intros k' Hk'. apply Hsub. right. exact Hk'. }
  apply H. auto.
Qed.

(** ** Recording *)

Lemma record_performance_eq (cfg : Config) (now : string) (c r : Q)
    (fl : list string) (w : World) :
  record_performance cfg now c r fl w =
  let grouped_df :=
    regroup (stored_history (BASELINE_CSV cfg) w ++ [new_entry now c r fl]) in
  (Ok grouped_df,
   {| files := fun p => if String.eqb p (BASELINE_CSV cfg)
                        then Some (to_csv grouped_df) else files w p;
      oracle := oracle w;
      spawned := spawned w |}).
Proof.
  unfold record_performance, bind. rewrite load_baseline_data_eq.
  cbv zeta. rewrite merge_grouped. reflexivity.
Qed.

Lemma stored_history_after_record (cfg : Config) (now : string) (c r : Q)
    (fl : list string) (w : World) :
  stored_history (BASELINE_CSV cfg)
                 (snd (record_performance cfg now c r fl w))
  = read_csv (to_csv (regroup (stored_history (BASELINE_CSV cfg) w
                               ++ [new_entry now c r fl]))).
Proof.
  rewrite record_performance_eq. cbv zeta. unfold stored_history at 1.
  cbn [snd files]. rewrite String.eqb_refl. reflexivity.
Qed.

Lemma regroup_timestamps (df : DataFrame) :
  map timestamp (regroup df) = map Some (group_keys df).
Proof. unfold regroup. rewrite map_map. reflexivity. Qed.

Lemma regroup_cell_timestamps (df : DataFrame) :
  map cell_timestamp (to_csv (regroup df)) = group_keys df.
Proof.
  unfold regroup, to_csv. rewrite !map_map. cbn [cell_timestamp timestamp
    grouped_row write_cell]. apply map_id.
Qed.



(** The flags of a merged row are not always those of its first row.  The
    script, started without a record file, records a measurement taken
    with no flags and then, in the same minute, one taken with [-O0].  The
    first contributing row has no flags value, yet the surviving row
    carries [-O0], although the script's comment reads "Take the first
    occurrence". *)
Lemma record_performance_skips_missing_flags :
  files world_after_flagless_record "baseline_performance.csv"
    = Some [ {| cell_timestamp := "2024-05-01 10:00";
                cell_compile_time := mean [1];
                cell_run_time := mean [1];
                cell_flags := "" |} ]
  /\ map flags
         (get_group "2024-05-01 10:00"
            (stored_history "baseline_performance.csv"
                            world_after_flagless_record
             ++ [new_entry "2024-05-01 10:00" 3 3 ["-O0"]]))
     = [None; Some "-O0"]
  /\ exists (grouped_df : DataFrame) (row : Row) (w' : World),
       record_performance script_config "2024-05-01 10:00" 3 3 ["-O0"]
                          world_after_flagless_record
         = (Ok grouped_df, w')
       /\ grouped_df = [row]
       /\ timestamp row = Some "2024-05-01 10:00"
       /\ flags row = Some "-O0"
       /\ flags row
          <> flags_of_first_row
               (get_group "2024-05-01 10:00"
                  (stored_history "baseline_performance.csv"
                                  world_after_flagless_record
                   ++ [new_entry "2024-05-01 10:00" 3 3 ["-O0"]])).
Proof.
  split; [reflexivity|]. split; [reflexivity|].
  rewrite record_performance_eq. cbv zeta.
  eexists. eexists. eexists. split; [reflexivity|].
  split; [reflexivity|].
  split; [reflexivity|]. split; [reflexivity|]. discriminate.
Qed.


Lemma mean_times_length (xs : list Q) :
  xs <> [] ->
  mean xs * inject_Z (Z.of_nat (List.length xs)) == fold_right Qplus 0 xs.
Proof.
  intros Hne. unfold mean. field.
  destruct xs; [contradiction|]. unfold Qeq. simpl. lia.
Qed.



(** ** Order of the rows *)

Lemma dropna_map_Some {A : Type} (xs : list A) : dropna (map Some xs) = xs.
Proof. induction xs as [|x xs IH]; simpl; [|rewrite IH]; reflexivity. Qed.

Lemma insert_key_below_all (k : string) (ks : list string) :
  Forall (key_lt k) ks -> insert_key k ks = k :: ks.
Proof.
  destruct ks as [|k' ks]; intros Hall; simpl.
  - reflexivity.
  - inversion Hall as [|? ? Hlt _]; subst. unfold key_lt in Hlt.
    rewrite Hlt. reflexivity.
Qed.

Lemma insert_keys_before_last (now : string) (ks : list string) :
  StronglySorted key_lt ks ->
  Forall (fun k => key_lt k now) ks ->
  fold_right insert_key [now] ks = ks ++ [now].
Proof.
  induction 1 as [|k ks Hs IH Hall]; intros Hnow; simpl.
  - reflexivity.
  - inversion Hnow as [|? ? Hk Hnow']; subst.
    rewrite (IH Hnow'). apply insert_key_below_all.
    apply Forall_app. split; [exact Hall|].
    constructor; [exact Hk | constructor].
Qed.

Lemma group_keys_append_later (history : DataFrame) (entry : Row)
    (old_keys : list string) (now : string) :
  map timestamp history = map Some old_keys ->
  timestamp entry = Some now ->
  StronglySorted key_lt old_keys ->
  Forall (fun k => key_lt k now) old_keys ->
  group_keys (history ++ [entry]) = old_keys ++ [now].
Proof.
  intros Hold Hentry Hs Hnow. unfold group_keys.
  rewrite map_app, Hold. simpl map. rewrite Hentry.
  change [Some now] with (map Some [now]).
  rewrite <- map_app, dropna_map_Some, fold_right_app. simpl.
  apply insert_keys_before_last; assumption.
Qed.

(** C9, as stated, fails: recording a measurement whose timestamp is a day
    earlier than the only stored row puts the new row first, before the
    pre-existing one. *)
Lemma record_performance_new_row_first :
  map timestamp
      (stored_history "baseline_performance.csv"
         (world_with "baseline_performance.csv" next_day_record))
    = [Some "2024-05-02 10:00"]
  /\ exists (grouped_df : DataFrame) (w' : World),
       record_performance script_config "2024-05-01 10:00" 3 4 ["-O0"]
         (world_with "baseline_performance.csv" next_day_record)
         = (Ok grouped_df, w')
       /\ map timestamp grouped_df
          = [Some "2024-05-01 10:00"; Some "2024-05-02 10:00"]
       /\ map cell_timestamp (to_csv grouped_df)
          = ["2024-05-01 10:00"; "2024-05-02 10:00"]
       /\ map timestamp grouped_df
          <> map timestamp
               (stored_history "baseline_performance.csv"
                  (world_with "baseline_performance.csv" next_day_record))
             ++ [Some "2024-05-01 10:00"].
Proof.
  split; [reflexivity|].
  rewrite record_performance_eq. cbv zeta.
  eexists. eexists. split; [reflexivity|].
  split; [reflexivity|]. split; [reflexivity|]. discriminate.
Qed.

(** C9, amended.  On a record whose timestamps all have the form the
    script writes ([YYYY-MM-DD HH:MM]), the history that a record
    operation returns and persists is ordered by ascending timestamp key,
    not by insertion.  When the stored rows are already in ascending order
    of distinct keys and the new key is greater than all of them, the rows
    of the pre-existing timestamps keep their places and the row of the
    new key comes after all of them. *)
Theorem record_performance_order
    (cfg : Config) (now : string) (new_compile_time new_run_time : Q)
    (new_flags : list string) (w : World) (history : DataFrame) :
  load_baseline_data (BASELINE_CSV cfg) w = (Ok history, w) ->
  Forall (fun r => exists t, timestamp r = Some t /\ minute_format t = true)
         history ->
  minute_format now = true ->
  exists (grouped_df : DataFrame) (w' : World),
    record_performance cfg now new_compile_time new_run_time new_flags w
      = (Ok grouped_df, w')
    /\ files w' (BASELINE_CSV cfg) = Some (to_csv grouped_df)
    /\ (exists keys : list string,
          map timestamp grouped_df = map Some keys
          /\ map cell_timestamp (to_csv grouped_df) = keys
          /\ StronglySorted (fun a b => String.compare a b = Lt) keys
          /\ Forall (fun k => minute_format k = true) keys)
    /\ (forall old_keys : list string,
          map timestamp history = map Some old_keys ->
          StronglySorted (fun a b => String.compare a b = Lt) old_keys ->
          Forall (fun k => String.compare k now = Lt) old_keys ->
          map timestamp grouped_df = map timestamp history ++ [Some now]).
Proof.
  intros Hload Hfmt Hnow. apply load_inv in Hload. destruct Hload as [-> _].
  rewrite record_performance_eq. cbv zeta.
  eexists. eexists. split; [reflexivity|].
  cbn [files]. rewrite String.eqb_refl. split; [reflexivity|]. split.
  - eexists. split; [apply regroup_timestamps|].
    split; [apply regroup_cell_timestamps|].
    split; [apply group_keys_sorted|].
    apply Forall_forall. intros k Hk. apply group_keys_In in Hk.
    rewrite map_app in Hk. apply in_app_or in Hk.
    destruct Hk as [Hk | [E | []]].
    + apply in_map_iff in Hk. destruct Hk as (r & Hr & Hin).
      rewrite Forall_forall in Hfmt. destruct (Hfmt r Hin) as (t & Ht & Hm).
      congruence.
    + simpl in E. congruence.
  - intros old_keys Hold Hs Hlater.
    rewrite regroup_timestamps,
      (group_keys_append_later _
         (new_entry now new_compile_time new_run_time new_flags)
         old_keys now Hold eq_refl Hs Hlater),
      map_app, Hold.
    reflexivity.
Qed.

Lemma record_performance_order_witness :
  exists (grouped_df : DataFrame) (w' : World),
    record_performance script_config "2024-05-03 10:00" 3 4 ["-O0"]
                       (world_with "baseline_performance.csv" next_day_record)
      = (Ok grouped_df, w')
    /\ files w' "baseline_performance.csv" = Some (to_csv grouped_df)
    /\ map timestamp grouped_df
       = [Some "2024-05-02 10:00"; Some "2024-05-03 10:00"].
Proof.
  destruct (record_performance_order script_config "2024-05-03 10:00" 3 4
              ["-O0"] (world_with "baseline_performance.csv" next_day_record)
              (read_csv next_day_record))
    as (grouped_df & w' & Hrun & Hfile & _ & Hlater).
  - reflexivity.
  - repeat constructor. eexists. split; reflexivity.
  - reflexivity.
  - exists grouped_df, w'. split; [exact Hrun|]. split; [exact Hfile|].
    apply (Hlater ["2024-05-02 10:00"]).
    + reflexivity.
    + repeat constructor.
    + repeat constructor.
Defined.

(** ** Two measurements in the same minute *)

Lemma get_group_regroup (k : string) (df : DataFrame) :
  In k (group_keys df) -> get_group k (regroup df) = [grouped_row df k].
Proof.
  intros Hin. unfold get_group, regroup.
  apply filter_key_unique.
  - intros x. reflexivity.
  - apply group_keys_NoDup.
  - exact Hin.
Qed.

Lemma get_group_absent (k : string) (df : DataFrame) :
  (forall r, In r df -> timestamp r <> Some k) -> get_group k df = [].
Proof.
  intros Habs. unfold get_group.
  induction df as [|r df IH]; simpl; [reflexivity|].
  destruct (has_key k r) eqn:E.
  - apply has_key_iff in E. exfalso.
    apply (Habs r); [left; reflexivity | exact E].
  - apply IH. intros r' Hr'. apply Habs. right. exact Hr'.
Qed.

Lemma get_group_app (k : string) (df1 df2 : DataFrame) :
  get_group k (df1 ++ df2) = get_group k df1 ++ get_group k df2.
Proof. unfold get_group. apply filter_app. Qed.

Lemma get_group_new_entry (k : string) (c r : Q) (fl : list string) :
  get_group k [new_entry k c r fl] = [new_entry k c r fl].
Proof.
  unfold get_group. simpl. unfold has_key. simpl.
  rewrite String.eqb_refl. reflexivity.
Qed.

(** Writing a frame and reading it back keeps the group of a key that is
    not one of the missing-value texts. *)
Lemma get_group_read_back (k : string) (df : DataFrame) :
  is_na k = false ->
  get_group k (read_csv (to_csv df)) = read_csv (to_csv (get_group k df)).
Proof.
  intros Hk. unfold get_group.
  induction df as [|r df IH]; simpl; [reflexivity|].
  assert (E : has_key k
                {| timestamp := read_cell (write_cell (timestamp r));
                   compile_time := compile_time r;
                   run_time := run_time r;
                   flags := read_cell (write_cell (flags r)) |}
              = has_key k r).
  { unfold has_key. cbn [timestamp]. destruct (timestamp r) as [t|]; simpl.
    - unfold read_cell. destruct (is_na t) eqn:Ht.
      + destruct (String.eqb_spec t k) as [->|]; congruence.
      + reflexivity.
    - reflexivity. }
  cbn [cell_timestamp cell_compile_time cell_run_time cell_flags].
  rewrite E. destruct (has_key k r); simpl; rewrite IH; reflexivity.
Qed.

Lemma group_keys_new_entry (history : DataFrame) (entry : Row) (k : string) :
  timestamp entry = Some k -> In k (group_keys (history ++ [entry])).
Proof.
  intros Hk. apply group_keys_In. rewrite map_app. apply in_or_app.
  right. simpl. left. exact Hk.
Qed.

Lemma mean_of_mean_pair (a b : Q) : mean [mean [a]; b] == (a + b) / 2.
Proof. unfold mean. simpl. field. Qed.

(** C2.  Starting from a history with no row for timestamp [T], recording
    a measurement with values [a] and flags text [X] and then, under the
    same timestamp, a measurement with values [b], leaves exactly one row
    for [T], in the returned history and in the persisted one; its
    compile time and run time are [(a + b) / 2] and its flags are [X].
    ([T] and [X] are ordinary texts, none of those read back as a missing
    value.) *)
Theorem record_twice_same_timestamp
    (cfg : Config) (T : string) (a_compile a_run b_compile b_run : Q)
    (X_flags Y_flags : list string) (w : World) (history : DataFrame) :
  load_baseline_data (BASELINE_CSV cfg) w = (Ok history, w) ->
  (forall r : Row, In r history -> timestamp r <> Some T) ->
  is_na T = false ->
  is_na (String.concat " " X_flags) = false ->
  exists (df1 : DataFrame) (w1 : World) (df2 : DataFrame) (w2 : World)
         (row : Row),
    record_performance cfg T a_compile a_run X_flags w = (Ok df1, w1)
    /\ record_performance cfg T b_compile b_run Y_flags w1 = (Ok df2, w2)
    /\ get_group T df2 = [row]
    /\ get_group T (stored_history (BASELINE_CSV cfg) w2) = [row]
    /\ compile_time row == (a_compile + b_compile) / 2
    /\ run_time row == (a_run + b_run) / 2
    /\ flags row = Some (String.concat " " X_flags).
Proof.
  intros Hload Hfresh HT HX.
  apply load_inv in Hload. destruct Hload as [-> _].
  set (H0 := stored_history (BASELINE_CSV cfg) w) in *.
  set (e1 := new_entry T a_compile a_run X_flags).
  set (e2 := new_entry T b_compile b_run Y_flags).
  set (D1 := H0 ++ [e1]).
  set (w1 := snd (record_performance cfg T a_compile a_run X_flags w)).
  assert (Hw1 : record_performance cfg T a_compile a_run X_flags w
                = (Ok (regroup D1), w1)).
  { unfold w1. rewrite record_performance_eq. reflexivity. }
  assert (H1 : stored_history (BASELINE_CSV cfg) w1
               = read_csv (to_csv (regroup D1))).
  { unfold w1. apply stored_history_after_record. }
  set (D2 := stored_history (BASELINE_CSV cfg) w1 ++ [e2]).
  set (w2 := snd (record_performance cfg T b_compile b_run Y_flags w1)).
  assert (Hw2 : record_performance cfg T b_compile b_run Y_flags w1
                = (Ok (regroup D2), w2)).
  { unfold w2. rewrite record_performance_eq. reflexivity. }
  assert (H2 : stored_history (BASELINE_CSV cfg) w2
               = read_csv (to_csv (regroup D2))).
  { unfold w2. apply stored_history_after_record. }
  assert (HT1 : In T (group_keys D1)).
  { apply (group_keys_new_entry H0 e1 T). reflexivity. }
  assert (HT2 : In T (group_keys D2)).
  { apply (group_keys_new_entry _ e2 T). reflexivity. }
  assert (HG1 : get_group T D1 = [e1]).
  { unfold D1. rewrite get_group_app, (get_group_absent T H0 Hfresh).
    apply get_group_new_entry. }
  assert (HG2 : get_group T D2
                = [ {| timestamp := Some T;
                       compile_time := mean [a_compile];
                       run_time := mean [a_run];
                       flags := Some (String.concat " " X_flags) |}; e2 ]).
  { unfold D2. rewrite get_group_app, H1, (get_group_read_back T _ HT),
      (get_group_regroup T D1 HT1). unfold e2.
    rewrite get_group_new_entry.
    unfold grouped_row. rewrite HG1. simpl.
    unfold read_cell. rewrite HT, HX. reflexivity. }
  exists (regroup D1), w1, (regroup D2), w2, (grouped_row D2 T).
  split; [exact Hw1|]. split; [exact Hw2|].
  split; [apply get_group_regroup; exact HT2|].
  split.
  { rewrite H2, (get_group_read_back T _ HT), (get_group_regroup T D2 HT2).
    unfold grouped_row. rewrite HG2. simpl.
    unfold read_cell. rewrite HT, HX. reflexivity. }
  unfold grouped_row. rewrite HG2. cbn [compile_time run_time flags map
    first_valid e2 new_entry].
  split; [apply mean_of_mean_pair|]. split; [apply mean_of_mean_pair|].
  reflexivity.
Qed.

Lemma record_twice_same_timestamp_witness :
  exists (df1 : DataFrame) (w1 : World) (df2 : DataFrame) (w2 : World)
         (row : Row),
    record_performance script_config "2024-05-01 10:00" 1 2 ["X"] no_files
      = (Ok df1, w1)
    /\ record_performance script_config "2024-05-01 10:00" 3 5 ["Y"] w1
       = (Ok df2, w2)
    /\ get_group "2024-05-01 10:00" df2 = [row]
    /\ get_group "2024-05-01 10:00"
         (stored_history (BASELINE_CSV script_config) w2) = [row]
    /\ compile_time row == (1 + 3) / 2
    /\ run_time row == (2 + 5) / 2
    /\ flags row = Some "X".
Proof.
  apply (record_twice_same_timestamp script_config "2024-05-01 10:00"
           1 2 3 5 ["X"] ["Y"] no_files []).
  - reflexivity.
  - intros r Hr. destruct Hr.
  - reflexivity.
  - reflexivity.
Defined.

(** * Further properties of the script *)

(** ** Sequencing *)

Lemma bind_ok {A B : Type} (m : M A) (k : A -> M B) (w w' : World) (a : A) :
  m w = (Ok a, w') -> bind m k w = k a w'.
Proof. intros H. unfold bind. rewrite H. reflexivity. Qed.

Lemma bind_raise {A B : Type} (m : M A) (k : A -> M B) (w w' : World)
    (e : exn) :
  m w = (Raise e, w') -> bind m k w = (Raise e, w').
Proof. intros H. unfold bind. rewrite H. reflexivity. Qed.

(** ** Measuring: what a failing process does *)

Lemma sampler_calls_length (cfg : Config) (compiler : string)
    (flags : list string) (n : nat) :
  List.length (sampler_calls cfg compiler flags n) = (2 * n)%nat.
Proof.
  unfold sampler_calls. induction n as [|n IH]; simpl; [reflexivity|].
  simpl in IH. rewrite IH. lia.
Qed.

Lemma sampler_calls_succ (cfg : Config) (compiler : string)
    (flags : list string) (n : nat) :
  sampler_calls cfg compiler flags (S n)
  = [compile_cmd cfg compiler flags; run_cmd cfg]
    ++ sampler_calls cfg compiler flags n.
Proof. reflexivity. Qed.

Lemma sample_loop_after (cfg : Config) (compiler : string)
    (flags : list string) (done : list (Q * Q)) (m : nat) :
  forall (compile_times run_times : list Q) (w : World),
    answers (oracle w) (List.length (spawned w)) done ->
    sample_loop cfg compiler flags (List.length done + m)
                compile_times run_times w
    = sample_loop cfg compiler flags m
        (compile_times ++ map fst done) (run_times ++ map snd done)
        {| files := files w; oracle := oracle w;
           spawned := spawned w
                      ++ sampler_calls cfg compiler flags
                                       (List.length done) |}.
Proof.
  induction done as [|[c r] rest IH]; intros cts rts w Hans.
  - simpl. unfold sampler_calls. simpl. rewrite !app_nil_r.
    destruct w; reflexivity.
  - simpl in Hans. destruct Hans as (Hc & Hr & Hrest).
    cbn [List.length Nat.add]. simpl sample_loop. unfold bind at 1.
    unfold compile_program, bind at 1, subprocess_run at 1. rewrite Hc.
    unfold ret at 1. unfold bind at 1, run_program, bind at 1.
    unfold subprocess_run at 1. cbn [oracle spawned files].
    rewrite length_app, Nat.add_1_r, Hr. unfold ret at 1.
    rewrite IH.
    + cbn [oracle spawned files map fst snd].
      rewrite sampler_calls_succ, <- !app_assoc. reflexivity.
    + cbn [oracle spawned files].
      rewrite !length_app, !Nat.add_1_r. exact Hrest.
Qed.

Lemma sample_loop_frame (cfg : Config) (compiler : string)
    (flags : list string) (n : nat) :
  forall (compile_times run_times : list Q) (w w' : World)
         (res : result (list Q * list Q)),
    sample_loop cfg compiler flags n compile_times run_times w = (res, w') ->
    files w' = files w /\ oracle w' = oracle w
    /\ exists log : list (list string),
         spawned w' = spawned w ++ log
         /\ (List.length log <= 2 * n)%nat.
Proof.
  induction n as [|n IH]; intros cts rts w w' res Hrun.
  - simpl in Hrun. unfold ret in Hrun. inversion Hrun; subst.
    repeat split. exists []. rewrite app_nil_r. split; [reflexivity|].
    simpl. lia.
  - simpl in Hrun. unfold bind at 1 in Hrun.
    unfold compile_program, bind at 1, subprocess_run at 1 in Hrun.
    destruct (oracle w (List.length (spawned w))) as [c| |].
    + unfold ret at 1 in Hrun.
      unfold bind at 1, run_program, bind at 1 in Hrun.
      unfold subprocess_run at 1 in Hrun. cbn [oracle spawned files] in Hrun.
      destruct (oracle w (List.length (spawned w ++ _))) as [r| |].
      * unfold ret at 1 in Hrun.
        apply IH in Hrun. cbn [files oracle spawned] in Hrun.
        destruct Hrun as (Hf & Ho & log & Hlog & Hlen).
        split; [exact Hf|]. split; [exact Ho|].
        eexists. rewrite Hlog, <- !app_assoc. split; [reflexivity|].
        rewrite !length_app. simpl. lia.
      * inversion Hrun; subst. cbn [files oracle spawned]. repeat split.
        eexists. rewrite <- app_assoc. split; [reflexivity|]. simpl. lia.
      * inversion Hrun; subst. cbn [files oracle spawned]. repeat split.
        eexists. split; [reflexivity|]. simpl. lia.
    + inversion Hrun; subst. cbn [files oracle spawned]. repeat split.
      eexists. split; [reflexivity|]. simpl. lia.
    + inversion Hrun; subst. repeat split.
      exists []. rewrite app_nil_r. split; [reflexivity|]. simpl. lia.
Qed.

Lemma measure_performance_inv (cfg : Config) (compiler : string)
    (flags : list string) (w w' : World) (res : result (Q * Q)) :
  measure_performance cfg compiler flags w = (res, w') ->
  files w' = files w /\ oracle w' = oracle w
  /\ exists log : list (list string),
       spawned w' = spawned w ++ log
       /\ (List.length log <= 2 * Z.to_nat (NUM_RUNS cfg))%nat.
Proof.
  unfold measure_performance, bind at 1.
  destruct (sample_loop cfg compiler flags (Z.to_nat (NUM_RUNS cfg)) [] [] w)
    as [r w1] eqn:Hrun.
  apply sample_loop_frame in Hrun.
  destruct r as [[cts rts]|e].
  - unfold bind, py_truediv, raise, ret.
    destruct (List.length cts);
      [intros H; inversion H; subst; exact Hrun|].
    destruct (List.length rts); intros H; inversion H; subst; exact Hrun.
  - intros H; inversion H; subst; exact Hrun.
Qed.

Lemma sample_loop_prefix (cfg : Config) (compiler : string)
    (flags : list string) (n : nat) :
  forall (compile_times run_times : list Q) (w w' : World)
         (res : result (list Q * list Q)),
    sample_loop cfg compiler flags n compile_times run_times w = (res, w') ->
    exists log rest : list (list string),
      spawned w' = spawned w ++ log
      /\ log ++ rest = sampler_calls cfg compiler flags n.
Proof.
  induction n as [|n IH]; intros cts rts w w' res Hrun.
  - simpl in Hrun. unfold ret in Hrun. inversion Hrun; subst.
    exists [], []. rewrite app_nil_r. split; reflexivity.
  - rewrite sampler_calls_succ.
    simpl in Hrun. unfold bind at 1 in Hrun.
    unfold compile_program, bind at 1, subprocess_run at 1 in Hrun.
    fold (compile_cmd cfg compiler flags) in Hrun.
    destruct (oracle w (List.length (spawned w))) as [c| |].
    + unfold ret at 1 in Hrun.
      unfold bind at 1, run_program, bind at 1 in Hrun.
      unfold subprocess_run at 1 in Hrun. cbn [oracle spawned files] in Hrun.
      fold (run_cmd cfg) in Hrun.
      destruct (oracle w (List.length (spawned w ++ _))) as [r| |].
      * unfold ret at 1 in Hrun.
        apply IH in Hrun. cbn [spawned] in Hrun.
        destruct Hrun as (log & rest & Hlog & Hrest).
        exists ([compile_cmd cfg compiler flags; run_cmd cfg] ++ log), rest.
        rewrite Hlog, <- !app_assoc, <- Hrest. split; reflexivity.
      * inversion Hrun; subst. cbn [spawned].
        exists [compile_cmd cfg compiler flags; run_cmd cfg],
               (sampler_calls cfg compiler flags n).
        rewrite <- app_assoc. split; reflexivity.
      * inversion Hrun; subst. cbn [spawned].
        exists [compile_cmd cfg compiler flags],
               (run_cmd cfg :: sampler_calls cfg compiler flags n).
        split; reflexivity.
    + inversion Hrun; subst. cbn [spawned].
      exists [compile_cmd cfg compiler flags],
             (run_cmd cfg :: sampler_calls cfg compiler flags n).
      split; reflexivity.
    + inversion Hrun; subst.
      exists [], ([compile_cmd cfg compiler flags; run_cmd cfg]
                  ++ sampler_calls cfg compiler flags n).
      rewrite app_nil_r. split; reflexivity.
Qed.

(** Whatever the processes do, the processes [measure_performance] spawns
    are an initial segment of the compile-then-run pairs of the requested
    runs, in that order: never more than two per run, never a run without
    its compilation, and none at all when no run is requested. *)
Theorem measure_performance_spawns_prefix
    (cfg : Config) (compiler : string) (flags : list string) (w : World) :
  exists log rest : list (list string),
    spawned (snd (measure_performance cfg compiler flags w))
    = spawned w ++ log
    /\ log ++ rest
       = sampler_calls cfg compiler flags (Z.to_nat (NUM_RUNS cfg))
    /\ (List.length log <= 2 * Z.to_nat (NUM_RUNS cfg))%nat.
Proof.
  assert (H : exists log rest : list (list string),
            spawned (snd (measure_performance cfg compiler flags w))
            = spawned w ++ log
            /\ log ++ rest
               = sampler_calls cfg compiler flags (Z.to_nat (NUM_RUNS cfg))).
  { unfold measure_performance, bind at 1.
    destruct (sample_loop cfg compiler flags (Z.to_nat (NUM_RUNS cfg))
                [] [] w) as [r w1] eqn:Hrun.
    apply sample_loop_prefix in Hrun.
    destruct r as [[cts rts]|e]; [|exact Hrun].
    unfold bind, py_truediv, raise, ret.
    destruct (List.length cts); [exact Hrun|].
    destruct (List.length rts); exact Hrun. }
  destruct H as (log & rest & Hlog & Hrest).
  exists log, rest. split; [exact Hlog|]. split; [exact Hrest|].
  apply (f_equal (@List.length (list string))) in Hrest.
  rewrite length_app, sampler_calls_length in Hrest. lia.
Qed.

(** No partial averaging, compilation side: when the first [k] samples
    succeed and the next compilation fails, with [k] below the requested
    number of runs, [measure_performance] raises [CalledProcessError]
    right after spawning that compilation; no further process is spawned
    and no average over the [k] good samples is returned. *)
Theorem measure_performance_compile_failure
    (cfg : Config) (compiler : string) (flags : list string)
    (done : list (Q * Q)) (w : World) :
  (Z.of_nat (List.length done) < NUM_RUNS cfg)%Z ->
  answers (oracle w) (List.length (spawned w)) done ->
  oracle w (List.length (spawned w) + 2 * List.length done) = ExitNonZero ->
  measure_performance cfg compiler flags w
  = (Raise CalledProcessError,
     {| files := files w; oracle := oracle w;
        spawned := spawned w
                   ++ sampler_calls cfg compiler flags (List.length done)
                   ++ [compile_cmd cfg compiler flags] |}).
Proof.
  intros Hk Hans Hfail.
  assert (Hm : exists m, Z.to_nat (NUM_RUNS cfg)
                         = (List.length done + S m)%nat).
  { exists (Z.to_nat (NUM_RUNS cfg) - S (List.length done))%nat. lia. }
  destruct Hm as (m & Hm).
  unfold measure_performance, bind at 1.
  rewrite Hm, (sample_loop_after cfg compiler flags done (S m) [] [] w Hans).
  simpl sample_loop. unfold bind at 1.
  unfold compile_program, bind at 1, subprocess_run at 1.
  cbn [oracle spawned files].
  rewrite length_app, sampler_calls_length, Hfail.
  rewrite <- app_assoc. reflexivity.
Qed.

Lemma measure_performance_compile_failure_witness :
  measure_performance (config_with_runs 4) "clang" ["-O0"]
                      regression_build_fails_world
  = (Raise CalledProcessError,
     {| files := files regression_build_fails_world;
        oracle := oracle regression_build_fails_world;
        spawned := [] ++ sampler_calls (config_with_runs 4) "clang" ["-O0"] 3
                   ++ [compile_cmd (config_with_runs 4) "clang" ["-O0"]] |}).
Proof.
  apply (measure_performance_compile_failure (config_with_runs 4) "clang"
           ["-O0"] [(1, 1); (1, 1); (1, 1)] regression_build_fails_world).
  - simpl. lia.
  - simpl. repeat split; reflexivity.
  - reflexivity.
Defined.

(** No partial averaging, execution side: when the first [k] samples
    succeed, the next compilation succeeds and the run of its binary
    fails, [measure_performance] raises [CalledProcessError] right after
    spawning that run. *)
Theorem measure_performance_run_failure
    (cfg : Config) (compiler : string) (flags : list string)
    (done : list (Q * Q)) (ctime : Q) (w : World) :
  (Z.of_nat (List.length done) < NUM_RUNS cfg)%Z ->
  answers (oracle w) (List.length (spawned w)) done ->
  oracle w (List.length (spawned w) + 2 * List.length done) = Exit0 ctime ->
  oracle w (List.length (spawned w) + 2 * List.length done + 1)
    = ExitNonZero ->
  measure_performance cfg compiler flags w
  = (Raise CalledProcessError,
     {| files := files w; oracle := oracle w;
        spawned := spawned w
                   ++ sampler_calls cfg compiler flags (List.length done)
                   ++ [compile_cmd cfg compiler flags; run_cmd cfg] |}).
Proof.
  intros Hk Hans Hc Hfail.
  assert (Hm : exists m, Z.to_nat (NUM_RUNS cfg)
                         = (List.length done + S m)%nat).
  { exists (Z.to_nat (NUM_RUNS cfg) - S (List.length done))%nat. lia. }
  destruct Hm as (m & Hm).
  unfold measure_performance, bind at 1.
  rewrite Hm, (sample_loop_after cfg compiler flags done (S m) [] [] w Hans).
  simpl sample_loop. unfold bind at 1.
  unfold compile_program, bind at 1, subprocess_run at 1.
  cbn [oracle spawned files].
  rewrite length_app, sampler_calls_length, Hc.
  unfold ret at 1. unfold bind at 1, run_program, bind at 1.
  unfold subprocess_run at 1. cbn [oracle spawned files].
  rewrite !length_app, sampler_calls_length. cbn [List.length].
  rewrite Hfail. rewrite <- !app_assoc. reflexivity.
Qed.

Lemma measure_performance_run_failure_witness :
  measure_performance script_config "clang" ["-O2"] run_fails_world
  = (Raise CalledProcessError,
     {| files := files run_fails_world;
        oracle := oracle run_fails_world;
        spawned := [] ++ sampler_calls script_config "clang" ["-O2"] 0
                   ++ [compile_cmd script_config "clang" ["-O2"];
                       run_cmd script_config] |}).
Proof.
  apply (measure_performance_run_failure script_config "clang" ["-O2"]
           [] 2 run_fails_world).
  - simpl. lia.
  - simpl. exact I.
  - reflexivity.
  - reflexivity.
Defined.

(** ** Saving and loading *)

Lemma read_back_cell (v : option string) :
  survives_csv v -> read_cell (write_cell v) = v.
Proof.
  destruct v as [s|]; simpl; intros H.
  - unfold read_cell. rewrite H. reflexivity.
  - reflexivity.
Qed.

Lemma read_cell_survives (cell : string) : survives_csv (read_cell cell).
Proof.
  unfold read_cell. destruct (is_na cell) eqn:E; simpl; [exact I | exact E].
Qed.

Lemma read_back_frame (df : DataFrame) :
  Forall (fun r => survives_csv (timestamp r) /\ survives_csv (flags r)) df ->
  read_csv (to_csv df) = df.
Proof.
  intros Hclean. unfold read_csv, to_csv. rewrite map_map.
  rewrite <- (map_id df) at 2. apply map_ext_in. intros r Hr.
  rewrite Forall_forall in Hclean. destruct (Hclean r Hr) as [Ht Hf].
  cbn [cell_timestamp cell_compile_time cell_run_time cell_flags].
  rewrite (read_back_cell _ Ht), (read_back_cell _ Hf).
  destruct r; reflexivity.
Qed.

Lemma load_after_save (df : DataFrame) (path : string) (w : World) :
  load_baseline_data path (snd (save_baseline_data df path w))
  = (Ok (read_csv (to_csv df)), snd (save_baseline_data df path w)).
Proof.
  rewrite load_baseline_data_eq. unfold stored_history, save_baseline_data,
    write_file. cbn [snd files]. rewrite String.eqb_refl. reflexivity.
Qed.

(** A frame that came out of a load can be saved, under any path, and
    loaded back without change: one trip through the file normalises the
    missing values, further trips change nothing. *)
Theorem load_save_load
    (path path' : string) (w w0 : World) (df : DataFrame) :
  load_baseline_data path w = (Ok df, w) ->
  load_baseline_data path' (snd (save_baseline_data df path' w0))
  = (Ok df, snd (save_baseline_data df path' w0)).
Proof.
  intros Hload. apply load_inv in Hload. destruct Hload as [-> _].
  rewrite load_after_save. f_equal. f_equal. apply read_back_frame.
  unfold stored_history. destruct (files w path) as [table|]; [|constructor].
  unfold read_csv. apply Forall_forall. intros r Hr.
  apply in_map_iff in Hr. destruct Hr as (c & <- & _). cbn [timestamp flags].
  split; apply read_cell_survives.
Qed.

Lemma load_save_load_witness :
  load_baseline_data "copy.csv"
    (snd (save_baseline_data (read_csv record_with_blank_timestamp)
                             "copy.csv" no_files))
  = (Ok (read_csv record_with_blank_timestamp),
     snd (save_baseline_data (read_csv record_with_blank_timestamp)
                             "copy.csv" no_files)).
Proof.
  apply (load_save_load "baseline_performance.csv" "copy.csv"
           (world_with "baseline_performance.csv" record_with_blank_timestamp)
           no_files (read_csv record_with_blank_timestamp)).
  reflexivity.
Defined.

(** ** Recording: what is kept, what is merged, what is lost *)

Lemma mean_single (x : Q) : mean [x] == x.
Proof. unfold mean. simpl. field. Qed.

Lemma mean_pair (x y : Q) : mean [x; y] == (x + y) / 2.
Proof. unfold mean. simpl. field. Qed.

(** The history only grows in timestamps: after a record operation the
    timestamps present are exactly the new one and those that were present
    (and not missing) before.  No timestamp is pruned, none is invented. *)
Theorem record_performance_timestamps
    (cfg : Config) (now : string) (new_compile_time new_run_time : Q)
    (new_flags : list string) (w : World) (history : DataFrame) :
  load_baseline_data (BASELINE_CSV cfg) w = (Ok history, w) ->
  exists (grouped_df : DataFrame) (w' : World),
    record_performance cfg now new_compile_time new_run_time new_flags w
      = (Ok grouped_df, w')
    /\ (forall k : string,
          In (Some k) (map timestamp grouped_df)
          <-> k = now \/ In (Some k) (map timestamp history))
    /\ ~ In None (map timestamp grouped_df).
Proof.
  intros Hload. apply load_inv in Hload. destruct Hload as [-> _].
  rewrite record_performance_eq. cbv zeta.
  eexists. eexists. split; [reflexivity|]. split.
  - intros k. rewrite regroup_timestamps. split.
    + rewrite in_map_iff. intros (k' & E & Hin). inversion E; subst k'.
      apply group_keys_In in Hin. rewrite map_app in Hin.
      apply in_app_or in Hin.
      destruct Hin as [Hin | [E' | []]]; [right; exact Hin|].
      left. simpl in E'. congruence.
    + intros H. apply in_map. apply group_keys_In. rewrite map_app.
      apply in_or_app. destruct H as [-> | H]; [right|left; exact H].
      left. reflexivity.
  - rewrite regroup_timestamps, in_map_iff. intros (k & E & _).
    discriminate E.
Qed.

Lemma record_performance_timestamps_witness :
  exists (grouped_df : DataFrame) (w' : World),
    record_performance script_config "2024-05-01 10:00" 3 4 ["-O0"]
      (world_with "baseline_performance.csv" next_day_record)
      = (Ok grouped_df, w')
    /\ (forall k : string,
          In (Some k) (map timestamp grouped_df)
          <-> k = "2024-05-01 10:00"
              \/ In (Some k) (map timestamp (read_csv next_day_record)))
    /\ ~ In None (map timestamp grouped_df).
Proof.
  apply (record_performance_timestamps script_config "2024-05-01 10:00" 3 4
           ["-O0"] (world_with "baseline_performance.csv" next_day_record)
           (read_csv next_day_record)).
  reflexivity.
Defined.

Lemma dropna_timestamps_filter (df : DataFrame) :
  dropna (map timestamp (filter has_timestamp df))
  = dropna (map timestamp df).
Proof.
  induction df as [|r df IH]; simpl; [reflexivity|].
  unfold has_timestamp at 1. destruct (timestamp r) as [t|] eqn:E; simpl.
  - rewrite E, IH. reflexivity.
  - exact IH.
Qed.

Lemma get_group_filter_timestamp (k : string) (df : DataFrame) :
  get_group k (filter has_timestamp df) = get_group k df.
Proof.
  unfold get_group. induction df as [|r df IH]; simpl; [reflexivity|].
  unfold has_timestamp at 1, has_key at 2.
  destruct (timestamp r) as [t|] eqn:E; simpl.
  - unfold has_key at 1. rewrite E, IH. reflexivity.
  - exact IH.
Qed.

Lemma regroup_filter_timestamp (df : DataFrame) :
  regroup (filter has_timestamp df) = regroup df.
Proof.
  unfold regroup, group_keys. rewrite dropna_timestamps_filter.
  apply map_ext. intros k. unfold grouped_row.
  rewrite get_group_filter_timestamp. reflexivity.
Qed.

Lemma read_csv_filter_timestamp (table : list CsvRow) :
  read_csv (filter (fun c => negb (is_na (cell_timestamp c))) table)
  = filter has_timestamp (read_csv table).
Proof.
  induction table as [|c table IH]; simpl; [reflexivity|].
  unfold has_timestamp at 1. cbn [timestamp].
  assert (Hcell : read_cell (cell_timestamp c)
                  = if is_na (cell_timestamp c) then None
                    else Some (cell_timestamp c)) by reflexivity.
  rewrite !Hcell.
  destruct (is_na (cell_timestamp c)); simpl; rewrite ?Hcell, IH;
    reflexivity.
Qed.

(** Silent loss: the stored rows whose timestamp cell is empty (or another
    text read as missing) take part in no group.  Recording on top of a
    record gives the same history as recording on top of that record with
    those rows deleted; their measurements are gone from the file that is
    written back. *)
Theorem record_performance_drops_missing_timestamps
    (cfg : Config) (now : string) (new_compile_time new_run_time : Q)
    (new_flags : list string) (w1 w2 : World) (table : list CsvRow) :
  files w1 (BASELINE_CSV cfg) = Some table ->
  files w2 (BASELINE_CSV cfg)
    = Some (filter (fun c => negb (is_na (cell_timestamp c))) table) ->
  fst (record_performance cfg now new_compile_time new_run_time new_flags w1)
  = fst (record_performance cfg now new_compile_time new_run_time new_flags
                            w2)
  /\ files (snd (record_performance cfg now new_compile_time new_run_time
                                    new_flags w1)) (BASELINE_CSV cfg)
     = files (snd (record_performance cfg now new_compile_time new_run_time
                                      new_flags w2)) (BASELINE_CSV cfg).
Proof.
  intros H1 H2. rewrite !record_performance_eq. cbv zeta. cbn [fst snd files].
  rewrite String.eqb_refl. unfold stored_history. rewrite H1, H2.
  assert (E : regroup (read_csv table
                       ++ [new_entry now new_compile_time new_run_time
                                     new_flags])
              = regroup (read_csv (filter (fun c => negb (is_na
                                             (cell_timestamp c))) table)
                         ++ [new_entry now new_compile_time new_run_time
                                       new_flags])).
  { rewrite <- (regroup_filter_timestamp (read_csv table ++ _)).
    rewrite filter_app, read_csv_filter_timestamp. reflexivity. }
  rewrite E. split; reflexivity.
Qed.

Lemma record_performance_drops_missing_timestamps_witness :
  fst (record_performance script_config "2024-05-01 10:07" 3 4 ["-O0"]
         (world_with "baseline_performance.csv" record_with_blank_timestamp))
  = fst (record_performance script_config "2024-05-01 10:07" 3 4 ["-O0"]
           (world_with "baseline_performance.csv"
                       (tl record_with_blank_timestamp)))
  /\ files (snd (record_performance script_config "2024-05-01 10:07" 3 4
                   ["-O0"]
                   (world_with "baseline_performance.csv"
                               record_with_blank_timestamp)))
           (BASELINE_CSV script_config)
     = files (snd (record_performance script_config "2024-05-01 10:07" 3 4
                     ["-O0"]
                     (world_with "baseline_performance.csv"
                                 (tl record_with_blank_timestamp))))
             (BASELINE_CSV script_config).
Proof.
  apply (record_performance_drops_missing_timestamps script_config
           "2024-05-01 10:07" 3 4 ["-O0"]
           (world_with "baseline_performance.csv" record_with_blank_timestamp)
           (world_with "baseline_performance.csv"
                       (tl record_with_blank_timestamp))
           record_with_blank_timestamp).
  - reflexivity.
  - reflexivity.
Defined.

Lemma get_group_with_new_entry (k now : string) (history : DataFrame)
    (c r : Q) (fl : list string) :
  get_group k (history ++ [new_entry now c r fl])
  = get_group k history
    ++ (if String.eqb now k then [new_entry now c r fl] else []).
Proof.
  rewrite get_group_app. reflexivity.
Qed.

Lemma first_valid_single (v : option string) : first_valid [v] = v.
Proof. destruct v; reflexivity. Qed.

(** A record operation does not disturb the other timestamps: a timestamp
    that has one stored row and is not the one being recorded keeps one
    row, with the same numbers and the same flags. *)
Theorem record_performance_keeps_other_rows
    (cfg : Config) (now : string) (new_compile_time new_run_time : Q)
    (new_flags : list string) (w : World) (history : DataFrame)
    (k : string) (old : Row) :
  load_baseline_data (BASELINE_CSV cfg) w = (Ok history, w) ->
  get_group k history = [old] ->
  k <> now ->
  exists (grouped_df : DataFrame) (w' : World) (row : Row),
    record_performance cfg now new_compile_time new_run_time new_flags w
      = (Ok grouped_df, w')
    /\ get_group k grouped_df = [row]
    /\ timestamp row = Some k
    /\ compile_time row == compile_time old
    /\ run_time row == run_time old
    /\ flags row = flags old.
Proof.
  intros Hload Hold Hne. apply load_inv in Hload. destruct Hload as [-> _].
  rewrite record_performance_eq. cbv zeta.
  set (D := stored_history (BASELINE_CSV cfg) w
            ++ [new_entry now new_compile_time new_run_time new_flags]).
  assert (HG : get_group k D = [old]).
  { unfold D. rewrite get_group_with_new_entry, Hold.
    destruct (String.eqb_spec now k) as [E|_]; [congruence | reflexivity]. }
  assert (Hk : In k (group_keys D)).
  { apply group_keys_In. unfold D. rewrite map_app. apply in_or_app. left.
    assert (Hin : In old (get_group k (stored_history (BASELINE_CSV cfg) w)))
      by (rewrite Hold; left; reflexivity).
    apply filter_In in Hin. destruct Hin as [Hin Hkey].
    apply has_key_iff in Hkey. rewrite <- Hkey. apply in_map. exact Hin. }
  exists (regroup D). eexists. exists (grouped_row D k).
  split; [reflexivity|].
  split; [apply get_group_regroup; exact Hk|].
  unfold grouped_row. rewrite HG.
  cbn [timestamp compile_time run_time flags map].
  split; [reflexivity|]. split; [apply mean_single|].
  split; [apply mean_single | apply first_valid_single].
Qed.

Lemma record_performance_keeps_other_rows_witness :
  exists (grouped_df : DataFrame) (w' : World) (row : Row),
    record_performance script_config "2024-05-01 10:00" 3 4 ["-O0"]
      (world_with "baseline_performance.csv" next_day_record)
      = (Ok grouped_df, w')
    /\ get_group "2024-05-02 10:00" grouped_df = [row]
    /\ timestamp row = Some "2024-05-02 10:00"
    /\ compile_time row == 1
    /\ run_time row == 2
    /\ flags row = Some "-O2".
Proof.
  apply (record_performance_keeps_other_rows script_config
           "2024-05-01 10:00" 3 4 ["-O0"]
           (world_with "baseline_performance.csv" next_day_record)
           (read_csv next_day_record) "2024-05-02 10:00"
           {| timestamp := Some "2024-05-02 10:00"; compile_time := 1;
              run_time := 2; flags := Some "-O2" |}).
  - reflexivity.
  - reflexivity.
  - discriminate.
Defined.

(** A measurement recorded under a timestamp that has no stored row is
    stored as it is: one row with the measured numbers and the flags
    joined by single spaces. *)
Theorem record_performance_fresh_timestamp
    (cfg : Config) (now : string) (new_compile_time new_run_time : Q)
    (new_flags : list string) (w : World) (history : DataFrame) :
  load_baseline_data (BASELINE_CSV cfg) w = (Ok history, w) ->
  (forall r : Row, In r history -> timestamp r <> Some now) ->
  exists (grouped_df : DataFrame) (w' : World) (row : Row),
    record_performance cfg now new_compile_time new_run_time new_flags w
      = (Ok grouped_df, w')
    /\ get_group now grouped_df = [row]
    /\ compile_time row == new_compile_time
    /\ run_time row == new_run_time
    /\ flags row = Some (String.concat " " new_flags).
Proof.
  intros Hload Hfresh. apply load_inv in Hload. destruct Hload as [-> _].
  rewrite record_performance_eq. cbv zeta.
  set (e := new_entry now new_compile_time new_run_time new_flags).
  set (D := stored_history (BASELINE_CSV cfg) w ++ [e]).
  assert (HG : get_group now D = [e]).
  { unfold D, e. rewrite get_group_with_new_entry,
      (get_group_absent now _ Hfresh), String.eqb_refl. reflexivity. }
  assert (Hk : In now (group_keys D)).
  { apply (group_keys_new_entry _ e now). reflexivity. }
  exists (regroup D). eexists. exists (grouped_row D now).
  split; [reflexivity|].
  split; [apply get_group_regroup; exact Hk|].
  unfold grouped_row. rewrite HG.
  cbn [compile_time run_time flags map e new_entry first_valid].
  split; [apply mean_single|]. split; [apply mean_single | reflexivity].
Qed.

Lemma record_performance_fresh_timestamp_witness :
  exists (grouped_df : DataFrame) (w' : World) (row : Row),
    record_performance script_config "2024-05-01 10:00" 3 4 ["-O0"; "-g"]
                       no_files
      = (Ok grouped_df, w')
    /\ get_group "2024-05-01 10:00" grouped_df = [row]
    /\ compile_time row == 3
    /\ run_time row == 4
    /\ flags row = Some "-O0 -g".
Proof.
  apply (record_performance_fresh_timestamp script_config
           "2024-05-01 10:00" 3 4 ["-O0"; "-g"] no_files []).
  - reflexivity.
  - intros r Hr. destruct Hr.
Defined.

(** Collision with a stored row: the stored row counts as one value,
    however many measurements were merged into it before.  The merged row
    holds the half-sum of the stored numbers and the new ones, and keeps
    the stored flags unless they are missing, in which case it takes the
    flags of the new measurement. *)
Theorem record_performance_collision
    (cfg : Config) (now : string) (new_compile_time new_run_time : Q)
    (new_flags : list string) (w : World) (history : DataFrame)
    (old : Row) :
  load_baseline_data (BASELINE_CSV cfg) w = (Ok history, w) ->
  get_group now history = [old] ->
  exists (grouped_df : DataFrame) (w' : World) (row : Row),
    record_performance cfg now new_compile_time new_run_time new_flags w
      = (Ok grouped_df, w')
    /\ get_group now grouped_df = [row]
    /\ compile_time row == (compile_time old + new_compile_time) / 2
    /\ run_time row == (run_time old + new_run_time) / 2
    /\ flags row = match flags old with
                   | Some f => Some f
                   | None => Some (String.concat " " new_flags)
                   end.
Proof.
  intros Hload Hold. apply load_inv in Hload. destruct Hload as [-> _].
  rewrite record_performance_eq. cbv zeta.
  set (e := new_entry now new_compile_time new_run_time new_flags).
  set (D := stored_history (BASELINE_CSV cfg) w ++ [e]).
  assert (HG : get_group now D = [old; e]).
  { unfold D, e. rewrite get_group_with_new_entry, Hold, String.eqb_refl.
    reflexivity. }
  assert (Hk : In now (group_keys D)).
  { apply (group_keys_new_entry _ e now). reflexivity. }
  exists (regroup D). eexists. exists (grouped_row D now).
  split; [reflexivity|].
  split; [apply get_group_regroup; exact Hk|].
  unfold grouped_row. rewrite HG.
  cbn [compile_time run_time flags map e new_entry first_valid].
  split; [apply mean_pair|]. split; [apply mean_pair|].
  destruct (flags old); reflexivity.
Qed.

Lemma record_performance_collision_witness :
  exists (grouped_df : DataFrame) (w' : World) (row : Row),
    record_performance script_config "2024-05-02 10:00" 3 4 ["-O0"]
      (world_with "baseline_performance.csv" next_day_record)
      = (Ok grouped_df, w')
    /\ get_group "2024-05-02 10:00" grouped_df = [row]
    /\ compile_time row == (1 + 3) / 2
    /\ run_time row == (2 + 4) / 2
    /\ flags row = Some "-O2".
Proof.
  apply (record_performance_collision script_config "2024-05-02 10:00" 3 4
           ["-O0"] (world_with "baseline_performance.csv" next_day_record)
           (read_csv next_day_record)
           {| timestamp := Some "2024-05-02 10:00"; compile_time := 1;
              run_time := 2; flags := Some "-O2" |}).
  - reflexivity.
  - reflexivity.
Defined.

(** ** Detection against positive averages *)






Lemma exceeds_weaken (thr thr' new avg : Q) :
  thr <= thr' -> exceeds thr' new avg -> exceeds thr new avg.
Proof.
  intros Hle [Hne Hlt | Hz Hpos].
  - apply exceeds_finite; [exact Hne|].
    eapply Qle_lt_trans; [exact Hle | exact Hlt].
  - apply exceeds_infinite; assumption.
Qed.

(** Lowering the threshold never removes a flag: a measurement flagged
    under some threshold ratio is flagged, against the same history, under
    every smaller one. *)
Theorem detect_regression_threshold_monotone
    (cfg cfg' : Config) (new_compile_time new_run_time : Q) (path : string)
    (w : World) (history : DataFrame) (explanation' : message) :
  load_baseline_data path w = (Ok history, w) ->
  history <> [] ->
  REGRESSION_THRESHOLD_RATIO cfg <= REGRESSION_THRESHOLD_RATIO cfg' ->
  detect_regression cfg' new_compile_time new_run_time path w
    = (Ok (true, explanation'), w) ->
  exists explanation : message,
    detect_regression cfg new_compile_time new_run_time path w
      = (Ok (true, explanation), w).
Proof.
  intros Hload Hne Hle Hflag.
  destruct (detect_regression_verdict cfg' new_compile_time new_run_time
              path w history Hload Hne) as (b' & msg' & Hrun' & Hiff').
  rewrite Hrun' in Hflag. inversion Hflag; subst b' msg'.
  destruct (detect_regression_verdict cfg new_compile_time new_run_time
              path w history Hload Hne) as (b & msg & Hrun & Hiff).
  exists msg. rewrite Hrun.
  assert (Hb : b = true).
  { apply Hiff. destruct (proj1 Hiff' eq_refl) as [H | H];
      [left | right]; eapply exceeds_weaken; eassumption. }
  rewrite Hb. reflexivity.
Qed.

Lemma detect_regression_threshold_monotone_witness :
  exists explanation : message,
    detect_regression (config_with_threshold (1 # 100)) (106 # 10)
      (104 # 10) "baseline_performance.csv"
      (world_with "baseline_performance.csv" two_equal_rows)
    = (Ok (true, explanation),
       world_with "baseline_performance.csv" two_equal_rows).
Proof.
  apply (detect_regression_threshold_monotone
           (config_with_threshold (1 # 100)) script_config (106 # 10)
           (104 # 10) "baseline_performance.csv"
           (world_with "baseline_performance.csv" two_equal_rows)
           (read_csv two_equal_rows)
           (regression_message
              (mean (map compile_time (read_csv two_equal_rows))) (106 # 10)
              (mean (map run_time (read_csv two_equal_rows))) (104 # 10))).
  - reflexivity.
  - discriminate.
  - discriminate.
  - reflexivity.
Defined.

(** ** A baseline and a candidate on a fresh record *)

Lemma read_back_compile_times (df : DataFrame) :
  map compile_time (read_csv (to_csv df)) = map compile_time df.
Proof. unfold read_csv, to_csv. rewrite !map_map. reflexivity. Qed.

Lemma read_back_run_times (df : DataFrame) :
  map run_time (read_csv (to_csv df)) = map run_time df.
Proof. unfold read_csv, to_csv. rewrite !map_map. reflexivity. Qed.

Lemma compare_refl_key (k : string) : String.compare k k = Eq.
Proof.
  destruct (String.compare k k) eqn:E; [reflexivity | |].
  - exfalso. exact (key_lt_irrefl k E).
  - exfalso. apply compare_Gt_key_lt in E. exact (key_lt_irrefl k E).
Qed.

(** Two rows, whether they share their timestamp or not, regroup into a
    frame whose column means are the half-sums of the two rows. *)
Lemma regroup_pair_means (r1 r2 : Row) (k1 k2 : string) :
  timestamp r1 = Some k1 -> timestamp r2 = Some k2 ->
  regroup [r1; r2] <> []
  /\ mean (map compile_time (regroup [r1; r2]))
     == (compile_time r1 + compile_time r2) / 2
  /\ mean (map run_time (regroup [r1; r2]))
     == (run_time r1 + run_time r2) / 2.
Proof.
  intros H1 H2. unfold regroup, group_keys, grouped_row, get_group, has_key.
  simpl. rewrite H1, H2. simpl.
  destruct (String.compare k1 k2) eqn:E.
  - apply String.compare_eq_iff in E. subst k2.
    simpl. rewrite !String.eqb_refl. simpl.
    split; [discriminate|]. split; unfold mean; simpl; field.
  - assert (Hne : k1 <> k2).
    { intros ->. rewrite compare_refl_key in E. discriminate. }
    simpl. rewrite !String.eqb_refl.
    destruct (String.eqb_spec k2 k1) as [E'|_]; [congruence|].
    destruct (String.eqb_spec k1 k2) as [E'|_]; [congruence|].
    simpl. split; [discriminate|]. split; unfold mean; simpl; field.
  - assert (Hne : k1 <> k2).
    { intros ->. rewrite compare_refl_key in E. discriminate. }
    simpl. rewrite !String.eqb_refl.
    destruct (String.eqb_spec k2 k1) as [E'|_]; [congruence|].
    destruct (String.eqb_spec k1 k2) as [E'|_]; [congruence|].
    simpl. split; [discriminate|]. split; unfold mean; simpl; field.
Qed.

Lemma regroup_single (r : Row) (k : string) :
  timestamp r = Some k ->
  regroup [r]
  = [ {| timestamp := Some k;
         compile_time := mean [compile_time r];
         run_time := mean [run_time r];
         flags := first_valid [flags r] |} ].
Proof.
  intros H. unfold regroup, group_keys, grouped_row, get_group, has_key.
  simpl. rewrite H. simpl. rewrite String.eqb_refl. reflexivity.
Qed.

(** The self-referential average.  Recording a baseline measurement and
    then a candidate measurement on a fresh record, as [main_flow] does,
    leaves a history in which the average of each metric is the half-sum
    of the two measurements, whether the two recordings share their
    timestamp (one merged row) or not (two rows): the candidate makes up
    half of the average it is then compared with. *)
Theorem record_twice_fresh_averages
    (cfg : Config) (now_baseline now_candidate : string)
    (baseline_compile baseline_run candidate_compile candidate_run : Q)
    (baseline_flags candidate_flags : list string) (w : World) :
  files w (BASELINE_CSV cfg) = None ->
  is_na now_baseline = false ->
  exists (df1 : DataFrame) (w1 : World) (df2 : DataFrame) (w2 : World)
         (history : DataFrame),
    record_performance cfg now_baseline baseline_compile baseline_run
                       baseline_flags w = (Ok df1, w1)
    /\ record_performance cfg now_candidate candidate_compile candidate_run
                          candidate_flags w1 = (Ok df2, w2)
    /\ load_baseline_data (BASELINE_CSV cfg) w2 = (Ok history, w2)
    /\ history <> []
    /\ fold_right Qplus 0 (map compile_time history)
       == (baseline_compile + candidate_compile) / 2
          * inject_Z (Z.of_nat (List.length history))
    /\ fold_right Qplus 0 (map run_time history)
       == (baseline_run + candidate_run) / 2
          * inject_Z (Z.of_nat (List.length history)).
Proof.
  intros Hnone Hna.
  set (e1 := new_entry now_baseline baseline_compile baseline_run
                       baseline_flags).
  set (e2 := new_entry now_candidate candidate_compile candidate_run
                       candidate_flags).
  set (r1 := {| timestamp := Some now_baseline;
                compile_time := mean [baseline_compile];
                run_time := mean [baseline_run];
                flags := read_cell (String.concat " " baseline_flags) |}).
  set (w1 := snd (record_performance cfg now_baseline baseline_compile
                    baseline_run baseline_flags w)).
  set (w2 := snd (record_performance cfg now_candidate candidate_compile
                    candidate_run candidate_flags w1)).
  assert (H0 : stored_history (BASELINE_CSV cfg) w = []).
  { unfold stored_history. rewrite Hnone. reflexivity. }
  assert (H1 : stored_history (BASELINE_CSV cfg) w1 = [r1]).
  { unfold w1. rewrite stored_history_after_record, H0. cbn [app].
    fold e1. rewrite (regroup_single e1 now_baseline eq_refl). simpl.
    unfold read_cell at 1. rewrite Hna. reflexivity. }
  assert (H2 : stored_history (BASELINE_CSV cfg) w2
               = read_csv (to_csv (regroup [r1; e2]))).
  { unfold w2. rewrite stored_history_after_record, H1. reflexivity. }
  destruct (regroup_pair_means r1 e2 now_baseline now_candidate
              eq_refl eq_refl) as (Hne & Hmc & Hmr).
  assert (Hlen : List.length (read_csv (to_csv (regroup [r1; e2])))
                 = List.length (regroup [r1; e2])).
  { unfold read_csv, to_csv. rewrite !length_map. reflexivity. }
  exists (regroup (stored_history (BASELINE_CSV cfg) w ++ [e1])), w1,
         (regroup (stored_history (BASELINE_CSV cfg) w1 ++ [e2])), w2,
         (read_csv (to_csv (regroup [r1; e2]))).
  split; [unfold w1; rewrite record_performance_eq; reflexivity|].
  split; [unfold w2; rewrite record_performance_eq; reflexivity|].
  split; [rewrite load_baseline_data_eq, H2; reflexivity|].
  split.
  { intros E. apply (f_equal (@List.length Row)) in E. rewrite Hlen in E.
    destruct (regroup [r1; e2]); [contradiction | discriminate]. }
  rewrite read_back_compile_times, read_back_run_times, Hlen.
  split.
  - rewrite <- (length_map compile_time (regroup [r1; e2])).
    rewrite <- mean_times_length, Hmc.
    + unfold r1, e2. cbn [compile_time new_entry].
      generalize
        (inject_Z (Z.of_nat (List.length (map compile_time
                                              (regroup [r1; e2]))))).
      intros n. unfold mean. simpl. field.
    + destruct (regroup [r1; e2]); [contradiction | discriminate].
  - rewrite <- (length_map run_time (regroup [r1; e2])).
    rewrite <- mean_times_length, Hmr.
    + unfold r1, e2. cbn [run_time new_entry].
      generalize
        (inject_Z (Z.of_nat (List.length (map run_time
                                              (regroup [r1; e2]))))).
      intros n. unfold mean. simpl. field.
    + destruct (regroup [r1; e2]); [contradiction | discriminate].
Qed.

Lemma record_twice_fresh_averages_witness :
  exists (df1 : DataFrame) (w1 : World) (df2 : DataFrame) (w2 : World)
         (history : DataFrame),
    record_performance script_config "2024-05-01 10:00" 1 2 ["-O2"] no_files
      = (Ok df1, w1)
    /\ record_performance script_config "2024-05-01 10:01" 3 6 ["-O0"] w1
       = (Ok df2, w2)
    /\ load_baseline_data (BASELINE_CSV script_config) w2 = (Ok history, w2)
    /\ history <> []
    /\ fold_right Qplus 0 (map compile_time history)
       == (1 + 3) / 2 * inject_Z (Z.of_nat (List.length history))
    /\ fold_right Qplus 0 (map run_time history)
       == (2 + 6) / 2 * inject_Z (Z.of_nat (List.length history)).
Proof.
  apply (record_twice_fresh_averages script_config "2024-05-01 10:00"
           "2024-05-01 10:01" 1 2 3 6 ["-O2"] ["-O0"] no_files).
  - reflexivity.
  - reflexivity.
Defined.

(** ** The full pipeline *)

(** A failure while the regression flags are measured aborts the pipeline
    with the same exception, after the baseline has been recorded: the
    record file holds the history written by the baseline recording, and
    no verdict is produced. *)
Theorem main_flow_regression_failure
    (cfg : Config) (parses : string -> bool)
    (now_baseline now_regression : string) (w w1 w2 w3 : World)
    (baseline_compile_time baseline_run_time : Q) (recorded : DataFrame)
    (e : exn) :
  measure_performance cfg (COMPILER cfg) (BASELINE_FLAGS cfg) w
    = (Ok (baseline_compile_time, baseline_run_time), w1) ->
  record_performance cfg now_baseline baseline_compile_time
                     baseline_run_time (BASELINE_FLAGS cfg) w1
    = (Ok recorded, w2) ->
  measure_performance cfg (COMPILER cfg) (REGRESSION_FLAGS cfg) w2
    = (Raise e, w3) ->
  main_flow cfg parses now_baseline now_regression w = (Raise e, w3)
  /\ files w3 (BASELINE_CSV cfg) = Some (to_csv recorded)
  /\ In (Some now_baseline) (map timestamp recorded).
Proof.
  intros Hm1 Hrec Hm2. split; [|split].
  - unfold main_flow. rewrite (bind_ok _ _ _ _ _ Hm1). cbv beta iota.
    rewrite (bind_ok _ _ _ _ _ Hrec). apply bind_raise. exact Hm2.
  - apply measure_performance_inv in Hm2. destruct Hm2 as [Hf _].
    rewrite Hf. rewrite record_performance_eq in Hrec. cbv zeta in Hrec.
    inversion Hrec; subst. cbn [files]. rewrite String.eqb_refl.
    reflexivity.
  - rewrite record_performance_eq in Hrec. cbv zeta in Hrec.
    inversion Hrec; subst. rewrite regroup_timestamps. apply in_map.
    apply (group_keys_new_entry _ _ now_baseline). reflexivity.
Qed.

Lemma main_flow_regression_failure_witness :
  main_flow script_config minute_format "2024-05-01 10:00"
            "2024-05-01 10:01" regression_build_fails_world
    = (Raise CalledProcessError,
       snd (measure_performance script_config "clang" ["-O0"]
              (snd (record_performance script_config "2024-05-01 10:00"
                      (py_sum [1; 1; 1] / 3) (py_sum [1; 1; 1] / 3) ["-O2"]
                      (snd (measure_performance script_config "clang"
                              ["-O2"] regression_build_fails_world))))))
  /\ files
       (snd (measure_performance script_config "clang" ["-O0"]
               (snd (record_performance script_config "2024-05-01 10:00"
                       (py_sum [1; 1; 1] / 3) (py_sum [1; 1; 1] / 3)
                       ["-O2"]
                       (snd (measure_performance script_config "clang"
                               ["-O2"] regression_build_fails_world))))))
       (BASELINE_CSV script_config)
     = Some (to_csv
               [ {| timestamp := Some "2024-05-01 10:00";
                    compile_time := mean [py_sum [1; 1; 1] / 3];
                    run_time := mean [py_sum [1; 1; 1] / 3];
                    flags := Some "-O2" |} ])
  /\ In (Some "2024-05-01 10:00")
        (map timestamp
             [ {| timestamp := Some "2024-05-01 10:00";
                  compile_time := mean [py_sum [1; 1; 1] / 3];
                  run_time := mean [py_sum [1; 1; 1] / 3];
                  flags := Some "-O2" |} ]).
Proof.
  apply (main_flow_regression_failure script_config minute_format
           "2024-05-01 10:00" "2024-05-01 10:01"
           regression_build_fails_world
           (snd (measure_performance script_config "clang" ["-O2"]
                                     regression_build_fails_world))
           (snd (record_performance script_config "2024-05-01 10:00"
                   (py_sum [1; 1; 1] / 3) (py_sum [1; 1; 1] / 3) ["-O2"]
                   (snd (measure_performance script_config "clang" ["-O2"]
                                             regression_build_fails_world))))
           _ (py_sum [1; 1; 1] / 3) (py_sum [1; 1; 1] / 3) _
           CalledProcessError).
  - reflexivity.
  - reflexivity.
  - reflexivity.
Defined.
